(** * memory_tracer.py: the [MemoryTracer] class

    A shallow embedding of [MemoryTracer] (start / stop / update and the
    context-manager protocol) together with the three collaborators it
    talks to: the [tracemalloc] module, [gc.collect] and the logging
    callable.  Every call made to a collaborator is recorded, in order, in
    an event trace, so that statements about "what was invoked, and when"
    are statements about that trace. *)

From Stdlib Require Import ZArith List String Ascii Bool Lia.
From Stdlib Require Import DecimalString Sorted SpecFloat.
Import ListNotations.

Open Scope string_scope.
Open Scope Z_scope.

(** ** Python values that reach the logger *)

(** The newline character of the Python literals ["\n"]. *)
Definition nl : string := String (ascii_of_nat 10) EmptyString.

(** Arguments handed to the logging callable after the format string.  A
    Python float is a binary64 number, written as in the IEEE 754
    specification of the standard library: sign, 53-bit mantissa and
    exponent. *)
Inductive pyval : Type :=
| PyInt (z : Z)
| PyFloat (f : spec_float)
| PyStr (s : string).

(** What a method hands back to its caller: [None] or the object itself. *)
Inductive retval : Type :=
| RNone
| RSelf.

(** Python truth value of a returned object ([None] is falsy). *)
Definition truthy (r : retval) : bool :=
  match r with RNone => false | RSelf => true end.

Inductive exception : Type :=
| RuntimeError (msg : string)
| ValueError (msg : string)
| AttributeError (msg : string)
| OverflowError (msg : string)
| Exception (msg : string).

(** The [key_type] strings given to [compare_to] and [statistics]. *)
Inductive key_type : Type :=
| Filename      (* "filename" *)
| Lineno        (* "lineno" *)
| Traceback.    (* "traceback" *)

(** ** Sequence helpers *)

(** [l[:stop]] for a Python int [stop]: a negative [stop] counts from the
    end of the list. *)
Definition slice_to {A : Type} (l : list A) (stop : Z) : list A :=
  if stop <? 0
  then firstn (Z.to_nat (Z.of_nat (List.length l) + stop)) l
  else firstn (Z.to_nat stop) l.

(** [enumerate(l, start)]. *)
Definition enumerate {A : Type} (l : list A) (start : nat) : list (nat * A) :=
  combine (seq start (List.length l)) l.

(** Decimal digits of a natural number. *)
Definition decimal (n : nat) : string :=
  NilEmpty.string_of_uint (Nat.to_uint n).

Fixpoint spaces (n : nat) : string :=
  match n with
  | O => EmptyString
  | S n' => String " "%char (spaces n')
  end.

(** [f"{i:-2}"]: right-aligned in a field of width 2; the [-] sign option
    prints a sign for negative numbers only, and [i] is never negative. *)
Definition format_rank (i : nat) : string :=
  let d := decimal i in
  spaces (2 - String.length d) ++ d.

(** [str(x)], for the row objects of the tracking facility. *)
Class Str (A : Type) := str : A -> string.

(** ** Numbers

    [stat.size / 1024] is a true division of Python ints: its result is
    the binary64 number nearest to the exact quotient, a tie going to the
    even mantissa, and the division raises [OverflowError] when that
    number would be 2^1024 or more. *)

(** The integer nearest to [num / den] for a positive [den], a tie going
    to the even one. *)
Definition round_half_even (num den : Z) : Z :=
  match 2 * (num mod den) ?= den with
  | Lt => num / den
  | Gt => num / den + 1
  | Eq => if Z.even (num / den) then num / den else num / den + 1
  end.

(** [a.bit_length()] for a positive [a]. *)
Definition bit_length (a : Z) : Z := Z.log2 a + 1.

(** Mantissa [m] and exponent [e] of the binary64 number nearest to
    [a / 2^k], for a positive [a] and [m * 2^e] in the normal range: up to
    53 bits the quotient is kept as it is, beyond that [a] is rounded to
    its 53 leading bits, and rounding up to 2^53 moves to the next
    exponent. *)
Definition nearest_double (a k : Z) : Z * Z :=
  let bits := bit_length a in
  if bits <=? 53 then (a * 2 ^ (53 - bits), bits - 53 - k)
  else
    let shift := bits - 53 in
    let q := round_half_even a (2 ^ shift) in
    if q =? 2 ^ 53 then (2 ^ 52, shift + 1 - k) else (q, shift - k).

(** The value of [n / 1024] when the division does not overflow. *)
Definition kib (n : Z) : spec_float :=
  match nearest_double (Z.abs n) 10 with
  | (Zpos m, e) => S754_finite (n <? 0) m e
  | _ => S754_zero false
  end.

(** The record that the rounding of the IEEE specification keeps while it
    shifts [a] right by [k] bits: the quotient, the last bit shifted out
    and whether any bit before it was set. *)
Definition shifted (a : Z) (k : Z) (mrs : shr_record) : Prop :=
  shr_m mrs = a / 2 ^ k /\
  shr_r mrs = Z.odd (a / 2 ^ (k - 1)) /\
  shr_s mrs = negb (a mod 2 ^ (k - 1) =? 0).

(** Whether [n / 1024] is out of the range of binary64: the largest
    exponent of a 53-bit mantissa is 1024 - 53. *)
Definition kib_overflows (n : Z) : bool :=
  1024 - 53 <? snd (nearest_double (Z.abs n) 10).

(** [str(z)] for a Python int. *)
Definition str_int (z : Z) : string := NilZero.string_of_int (Z.to_int z).

(** A number of tenths printed with one decimal. *)
Definition tenths_text (negative : bool) (tenths : Z) : string :=
  (if negative then "-" else "")
  ++ str_int (tenths / 10) ++ "." ++ str_int (tenths mod 10).

(** ['%.1f' % f]: the decimal with one place nearest to the exact value of
    the float, a tie going to the even digit; the sign is kept even when
    the digits are all zero. *)
Definition format_1f (f : spec_float) : string :=
  match f with
  | S754_zero s => tenths_text s 0
  | S754_infinity s => if s then "-inf" else "inf"
  | S754_nan => "nan"
  | S754_finite s m e =>
      tenths_text s (if 0 <=? e then 10 * Zpos m * 2 ^ e
                     else round_half_even (10 * Zpos m) (2 ^ (- e)))
  end.

(** [num / den] to one decimal, as one would write it by hand: the
    nearest number of tenths, a tie going to the even one. *)
Definition one_decimal (num den : Z) : string :=
  tenths_text (num <? 0) (round_half_even (10 * Z.abs num) den).

(** One argument under the [%s] directive.  [str] of a float is its
    shortest round-trip form, which the tracer never asks for and this
    model leaves out. *)
Definition percent_s (v : pyval) : option string :=
  match v with
  | PyInt z => Some (str_int z)
  | PyStr t => Some t
  | PyFloat _ => None
  end.

(** One argument under the [%.1f] directive; a string there is a
    [TypeError], and the conversion of an int is left out. *)
Definition percent_1f (v : pyval) : option string :=
  match v with
  | PyFloat f => Some (format_1f f)
  | _ => None
  end.

(** [fmt % args] for the directives the tracer uses, [%s] and [%.1f]:
    [None] stands for a [TypeError] (too few or too many arguments, a
    wrong type) and for whatever this model leaves out. *)
Fixpoint percent_format (fmt : string) (args : list pyval) : option string :=
  match fmt with
  | EmptyString =>
      match args with
      | [] => Some EmptyString
      | _ :: _ => None
      end
  | String "%" (String "s" rest) =>
      match args with
      | v :: args' =>
          match percent_s v, percent_format rest args' with
          | Some t, Some u => Some (t ++ u)
          | _, _ => None
          end
      | [] => None
      end
  | String "%" (String "." (String "1" (String "f" rest))) =>
      match args with
      | v :: args' =>
          match percent_1f v, percent_format rest args' with
          | Some t, Some u => Some (t ++ u)
          | _, _ => None
          end
      | [] => None
      end
  | String "%" _ => None
  | String c rest =>
      match percent_format rest args with
      | Some u => Some (String c u)
      | None => None
      end
  end.

(** ** Collaborators *)

(** The part of [tracemalloc] the tracer relies on.  [Memory] stands for
    the live allocations of the process at some instant, as far as the
    facility has them on record; a snapshot is whatever the facility
    captures from it under the traceback limit in force.  [start_error n]
    is the exception with which [tracemalloc.start(n)] refuses the frame
    count [n], if it does; [discard m] is what is left on record once the
    facility has cleared the traces it had collected. *)
Class Tracemalloc : Type := {
  Memory : Type;
  Snapshot : Type;
  StatisticDiff : Type;
  Frames : Type;
  start_error : Z -> option exception;
  discard : Memory -> Memory;
  snapshot_of : Z -> Memory -> Snapshot;
  format : Frames -> list string;
  StatisticDiff_str :: Str StatisticDiff;
}.

(** Whether [tracemalloc.start(n)] accepts the frame count [n]. *)
Definition valid_nframe `{Tracemalloc} (n : Z) : bool :=
  match start_error n with
  | None => true
  | Some _ => false
  end.

(** A [tracemalloc.Statistic]: the three attributes [update] reads. *)
Record Statistic `{Tracemalloc} : Type := mkStatistic {
  traceback : Frames;
  size : Z;
  count : Z;
}.
Arguments mkStatistic {_} traceback size count.

(** The methods of a [Snapshot] object.  The size of a statistic is a sum
    of sizes of memory blocks, each a machine word, and stays far below
    2^1024. *)
Class SnapshotOps `{Tracemalloc} : Type := {
  compare_to : Snapshot -> Snapshot -> key_type -> list StatisticDiff;
  statistics : Snapshot -> key_type -> list Statistic;
  Statistic_str :: Str Statistic;
  statistics_size :
    forall (snap : Snapshot) (k : key_type) (stat : Statistic),
      In stat (statistics snap k) -> Z.abs (size stat) < 2 ^ 1024;
}.

(** The garbage collector: one collection pass over the live allocations. *)
Class GarbageCollector `{Tracemalloc} : Type := {
  collect : Memory -> Memory;
}.

(** How a call ends: it returns a value or raises. *)
Inductive outcome (A : Type) : Type :=
| Return (a : A)
| Raise (e : exception).
Arguments Return {A} a.
Arguments Raise {A} e.

Section Tracer.

Context `{TM : Tracemalloc} `{!SnapshotOps} `{!GarbageCollector}.

(** Calls received by the collaborators, oldest first. *)
Inductive event : Type :=
| EvIsTracing                              (* tracemalloc.is_tracing() *)
| EvStart (nframe : Z)                     (* tracemalloc.start(nframe) *)
| EvStop                                   (* tracemalloc.stop() *)
| EvTakeSnapshot                           (* tracemalloc.take_snapshot() *)
| EvCollect                                (* gc.collect() *)
| EvLog (fmt : string) (args : list pyval) (* self.log(fmt, *args) *).

(** Everything outside the tracer object. *)
Record world : Type := mkWorld {
  tracing : bool;
  traceback_limit : Z;
  memory : Memory;
  events : list event;
}.

(** The attributes of a [MemoryTracer] instance ([log] is the logging
    collaborator and lives in the [world]). *)
Record MemoryTracer : Type := mkMemoryTracer {
  top : Z;
  trace : Z;
  nframe : Z;
  gccollect : bool;
  disabled : bool;
  _start : option Snapshot;
  _prev : option Snapshot;
}.

Record state : Type := mkState {
  self : MemoryTracer;
  env : world;
}.

(** ** A state-and-exception monad

    A Python exception leaves every mutation done so far in place, so the
    state is returned on both outcomes. *)

Definition M (A : Type) : Type := state -> outcome A * state.

Definition ret {A : Type} (a : A) : M A := fun s => (Return a, s).

Definition raise {A : Type} (e : exception) : M A := fun s => (Raise e, s).

Definition bind {A B : Type} (m : M A) (k : A -> M B) : M B :=
  fun s =>
    match m s with
    | (Return a, s') => k a s'
    | (Raise e, s') => (Raise e, s')
    end.

Notation "x <- m ;; k" := (bind m (fun x => k))
  (at level 61, m at next level, right associativity).
Notation "m ;;; k" := (bind m (fun _ => k))
  (at level 61, right associativity).

Definition get_self : M MemoryTracer := fun s => (Return (self s), s).

Definition emit (e : event) (s : state) : state :=
  let w := env s in
  mkState (self s)
          (mkWorld (tracing w) (traceback_limit w) (memory w) (events w ++ [e])%list).

(** [for x in xs: body(x)]. *)
Fixpoint for_each {A : Type} (xs : list A) (body : A -> M unit) : M unit :=
  match xs with
  | [] => ret tt
  | x :: xs' => body x ;;; for_each xs' body
  end.

(** *** tracemalloc *)

Definition is_tracing : M bool :=
  fun s => let s' := emit EvIsTracing s in (Return (tracing (env s')), s').

(** [tracemalloc.start(nframe)]: refuses a frame count it cannot take,
    with the facility's own exception, and does nothing when tracing is
    already on. *)
Definition tracemalloc_start (n : Z) : M unit :=
  fun s =>
    let s' := emit (EvStart n) s in
    let w := env s' in
    match start_error n with
    | Some e => (Raise e, s')
    | None =>
        if tracing w then (Return tt, s')
        else (Return tt,
              mkState (self s') (mkWorld true n (memory w) (events w)))
    end.

(** [tracemalloc.stop()]: never fails.  When tracing is on it switches it
    off and clears the traces collected so far; when tracing is off it
    does nothing. *)
Definition tracemalloc_stop : M unit :=
  fun s =>
    let s' := emit EvStop s in
    let w := env s' in
    if tracing w
    then (Return tt,
          mkState (self s')
                  (mkWorld false (traceback_limit w) (discard (memory w)) (events w)))
    else (Return tt, s').

(** [tracemalloc.take_snapshot()]: needs tracing to be on. *)
Definition take_snapshot : M Snapshot :=
  fun s =>
    let s' := emit EvTakeSnapshot s in
    let w := env s' in
    if tracing w
    then (Return (snapshot_of (traceback_limit w) (memory w)), s')
    else (Raise (RuntimeError
                   "the tracemalloc module must be tracing memory allocations to take a snapshot"),
          s').

(** [current.compare_to(old, key_type)] where [old] may be [None]. *)
Definition snapshot_compare_to (current : Snapshot) (old : option Snapshot)
    (k : key_type) : M (list StatisticDiff) :=
  match old with
  | Some o => ret (compare_to current o k)
  | None => raise (AttributeError "'NoneType' object has no attribute '_group_by'")
  end.

(** *** gc *)

Definition gc_collect : M unit :=
  fun s =>
    let s' := emit EvCollect s in
    let w := env s' in
    (Return tt,
     mkState (self s')
             (mkWorld (tracing w) (traceback_limit w) (collect (memory w)) (events w))).

(** *** self.log *)

Definition log (fmt : string) (args : list pyval) : M unit :=
  fun s => (Return tt, emit (EvLog fmt args) s).

(** The text the [logging] module makes of a log call
    ([LogRecord.getMessage]): the format string itself when there is no
    argument, [fmt % args] otherwise. *)
Definition getMessage (e : event) : option string :=
  match e with
  | EvLog fmt [] => Some fmt
  | EvLog fmt args => percent_format fmt args
  | _ => None
  end.

(** *** int / int *)

(** [n / 1024]. *)
Definition truediv_1024 (n : Z) : M spec_float :=
  if kib_overflows n
  then raise (OverflowError "integer division result too large for a float")
  else ret (kib n).

(** *** attribute assignment *)

Definition set__start (v : option Snapshot) : M unit :=
  fun s =>
    let t := self s in
    (Return tt,
     mkState (mkMemoryTracer (top t) (trace t) (nframe t) (gccollect t)
                             (disabled t) v (_prev t))
             (env s)).

Definition set__prev (v : option Snapshot) : M unit :=
  fun s =>
    let t := self s in
    (Return tt,
     mkState (mkMemoryTracer (top t) (trace t) (nframe t) (gccollect t)
                             (disabled t) (_start t) v)
             (env s)).

(** ** MemoryTracer *)

Definition start_msg : string := "Starting memory tracer".
Definition stop_msg : string := "Stopped memory tracer".
Definition already_tracing_msg : string :=
  "Cannot start to trace when already tracing".
Definition cumulative_fmt : string :=
  "Top cumulative stats since start:" ++ nl ++ "%s".
Definition incremental_fmt : string :=
  "Top incremental stats since previous:" ++ nl ++ "%s".
Definition current_fmt : string := "Top current stats:" ++ nl ++ "%s".
Definition traceback_fmt : string :=
  "memory_blocks=%s size_KiB=%.1f" ++ nl ++ "%s".

Definition start : M retval :=
  t <- get_self ;;
  if disabled t then ret RSelf else
  active <- is_tracing ;;
  if active then raise (RuntimeError already_tracing_msg) else
  log start_msg [] ;;;
  tracemalloc_start (nframe t) ;;;
  snap <- take_snapshot ;;
  set__start (Some snap) ;;;
  t' <- get_self ;;
  set__prev (_start t') ;;;
  ret RNone.

Definition stop : M retval :=
  t <- get_self ;;
  if disabled t then ret RNone else
  set__start None ;;;
  set__prev None ;;;
  tracemalloc_stop ;;;
  log stop_msg [] ;;;
  ret RNone.

Definition _format_stats {A : Type} `{Str A} (stats : list A) : string :=
  String.concat nl
    (map (fun '(i, s) => format_rank i ++ ": " ++ str s) (enumerate stats 1)).

(** The body of the [for stat in traces[: self.trace]] loop. *)
Definition log_traceback (stat : Statistic) : M unit :=
  let lines := String.concat nl (format (traceback stat)) in
  size_KiB <- truediv_1024 (size stat) ;;
  log traceback_fmt [PyInt (count stat); PyFloat size_KiB; PyStr lines].

Definition update : M retval :=
  t <- get_self ;;
  if disabled t then ret RNone else
  (if gccollect t then gc_collect else ret tt) ;;;
  current <- take_snapshot ;;
  cumulative_stats <- snapshot_compare_to current (_start t) Filename ;;
  incremental_stats <- snapshot_compare_to current (_prev t) Lineno ;;
  log cumulative_fmt [PyStr (_format_stats (slice_to cumulative_stats (top t)))] ;;;
  log incremental_fmt [PyStr (_format_stats (slice_to incremental_stats (top t)))] ;;;
  log current_fmt
      [PyStr (_format_stats (slice_to (statistics current Filename) (top t)))] ;;;
  for_each (slice_to (statistics current Traceback) (trace t)) log_traceback ;;;
  set__prev (Some current) ;;;
  ret RNone.

Definition __enter__ : M retval :=
  start ;;;
  ret RSelf.

Definition __exit__ (exc : option exception) : M retval :=
  stop ;;;
  ret RNone.

(** [with tracer as mt: body(mt)].  A failing [__enter__] skips both the
    body and [__exit__]; otherwise [__exit__] runs on every way out of the
    body, and an exception of the body is swallowed only when [__exit__]
    returns a true value. *)
Definition with_ {A : Type} (body : retval -> M A) : M (option A) :=
  fun s =>
    match __enter__ s with
    | (Raise e, s1) => (Raise e, s1)
    | (Return mt, s1) =>
        match body mt s1 with
        | (Return a, s2) =>
            match __exit__ None s2 with
            | (Return _, s3) => (Return (Some a), s3)
            | (Raise e, s3) => (Raise e, s3)
            end
        | (Raise e, s2) =>
            match __exit__ (Some e) s2 with
            | (Return r, s3) =>
                if truthy r then (Return None, s3) else (Raise e, s3)
            | (Raise e', s3) => (Raise e', s3)
            end
        end
    end.

(** ** Runs of the tracer inside a program *)

(** The traced program runs for a while and leaves [m] as the live
    allocations of the process. *)
Definition allocate (m : Memory) (w : world) : world :=
  mkWorld (tracing w) (traceback_limit w) m (events w).

Definition user_code (m : Memory) (s : state) : state :=
  mkState (self s) (allocate m (env s)).

(** [updates ms s]: after each stretch of the program in [ms] the caller
    checkpoints with [update()]. *)
Fixpoint updates (ms : list Memory) (s : state) : state :=
  match ms with
  | [] => s
  | m :: ms' => updates ms' (snd (update (user_code m s)))
  end.

(** What one may do with a tracer, [Elsewhere] being any code that acts on
    the process without going through the tracer. *)
Inductive call : Type :=
| CallStart
| CallStop
| CallUpdate
| Elsewhere (f : world -> world).

(** The state a call leaves behind, whether it returned or raised. *)
Definition perform (c : call) (s : state) : state :=
  match c with
  | CallStart => snd (start s)
  | CallStop => snd (stop s)
  | CallUpdate => snd (update s)
  | Elsewhere f => mkState (self s) (f (env s))
  end.

Definition run (cs : list call) (s : state) : state :=
  fold_left (fun s' c => perform c s') cs s.

(** ** Reading the event trace *)

(** The events recorded between two states of one run. *)
Definition emitted (before after : state) : list event :=
  skipn (List.length (events (env before))) (events (env after)).

(** The argument lists of the log calls made with format string [fmt]. *)
Definition logged (fmt : string) (evs : list event) : list (list pyval) :=
  flat_map (fun e =>
              match e with
              | EvLog f args => if String.eqb f fmt then [args] else []
              | _ => []
              end) evs.

(** The event one detailed traceback report leaves in the trace. *)
Definition traceback_event (stat : Statistic) : event :=
  EvLog traceback_fmt
        [PyInt (count stat); PyFloat (kib (size stat));
         PyStr (String.concat nl (format (traceback stat)))].

(** What is left of the live allocations [m] when [update] snapshots. *)
Definition gc_pass (t : MemoryTracer) (m : Memory) : Memory :=
  if gccollect t then collect m else m.

(** The construction-time attributes of a tracer. *)
Definition config (t : MemoryTracer) : Z * Z * Z * bool * bool :=
  (top t, trace t, nframe t, gccollect t, disabled t).

(** The tracer [t] with its two snapshot attributes replaced. *)
Definition with_snapshots (t : MemoryTracer) (a b : option Snapshot) : MemoryTracer :=
  mkMemoryTracer (top t) (trace t) (nframe t) (gccollect t) (disabled t) a b.

(** Several events appended at once. *)
Definition emits (evs : list event) (w : world) : world :=
  mkWorld (tracing w) (traceback_limit w) (memory w) (events w ++ evs)%list.

(** The call [update] makes to the garbage collector, if any. *)
Definition collect_events (t : MemoryTracer) : list event :=
  if gccollect t then [EvCollect] else [].

(** The calls a checkpoint makes once the garbage collector has run (or
    was skipped), given the baseline [b], the previous snapshot [p] and
    the snapshot [cur] it has just taken. *)
Definition report_events (t : MemoryTracer) (b p cur : Snapshot) : list event :=
  [EvTakeSnapshot;
   EvLog cumulative_fmt
         [PyStr (_format_stats (slice_to (compare_to cur b Filename) (top t)))];
   EvLog incremental_fmt
         [PyStr (_format_stats (slice_to (compare_to cur p Lineno) (top t)))];
   EvLog current_fmt
         [PyStr (_format_stats (slice_to (statistics cur Filename) (top t)))]]
  ++ map traceback_event (slice_to (statistics cur Traceback) (trace t)).

(** ** Construction and the shape of a report *)

(** [MemoryTracer(top=20, trace=1, nframe=25, gccollect=True,
    disabled=False)]: a keyword argument left out is [None] here and takes
    the default of the signature.  The [log] argument selects the logging
    collaborator and is not part of this record. *)
Definition __init__ (top trace nframe : option Z) (gccollect disabled : option bool)
    : MemoryTracer :=
  mkMemoryTracer
    (match top with Some v => v | None => 20 end)
    (match trace with Some v => v | None => 1 end)
    (match nframe with Some v => v | None => 25 end)
    (match gccollect with Some v => v | None => true end)
    (match disabled with Some v => v | None => false end)
    None
    None.

(** The generator inside [_format_stats], before the join. *)
Definition stat_lines {A : Type} `{Str A} (stats : list A) : list string :=
  map (fun '(i, s) => format_rank i ++ ": " ++ str s) (enumerate stats 1).

(** Number of newline characters in a string. *)
Fixpoint newlines (s : string) : nat :=
  match s with
  | EmptyString => O
  | String c rest =>
      ((if Ascii.eqb c (ascii_of_nat 10) then 1 else 0) + newlines rest)%nat
  end.

(** The format strings of the log calls of a trace, in order. *)
Definition log_formats (evs : list event) : list string :=
  flat_map (fun e => match e with EvLog f _ => [f] | _ => [] end) evs.

(** How many times a trace asks the facility for a snapshot. *)
Definition snapshots_taken (evs : list event) : nat :=
  List.length
    (filter (fun e => match e with EvTakeSnapshot => true | _ => false end) evs).

(** A call that leaves the tracing switch of the facility to the tracer:
    any method of the tracer, or outside code that does not flip it. *)
Definition quiet (c : call) : Prop :=
  match c with
  | Elsewhere f => forall w, tracing (f w) = tracing w
  | _ => True
  end.

(** The two snapshot attributes are set together or not at all, and a
    tracer that holds a baseline has the facility tracing. *)
Definition in_step (s : state) : Prop :=
  (_start (self s) = None <-> _prev (self s) = None) /\
  (_start (self s) <> None -> tracing (env s) = true).

End Tracer.

(** ** A fake tracking facility

    A small stand-in for [tracemalloc] and [gc], of the kind a test of the
    tracer would inject: the live allocations are a list of allocation
    sites, a snapshot is a copy of that list, a collection pass drops the
    sites that hold no block, and clearing the traces leaves nothing on
    record.  Frame counts are refused as CPython 3.11 refuses them. *)
Module Fake.

Record site : Type := mkSite {
  frames : list string;   (* call stack, innermost frame first *)
  bytes : Z;
  blocks : Z;
}.

(** ["app.py:7"] is line 7 of file ["app.py"]. *)
Fixpoint file_part (frame : string) : string :=
  match frame with
  | EmptyString => EmptyString
  | String c rest =>
      if Ascii.eqb c ":"%char then EmptyString else String c (file_part rest)
  end.

(** The attribution of a site under each way of grouping. *)
Definition key_of (k : key_type) (st : site) : string :=
  match k with
  | Filename => file_part (hd "?" (frames st))
  | Lineno => hd "?" (frames st)
  | Traceback => String.concat " < " (frames st)
  end.

Fixpoint bytes_at (k : key_type) (key : string) (snap : list site) : Z :=
  match snap with
  | [] => 0
  | st :: rest =>
      (if String.eqb (key_of k st) key then bytes st else 0) + bytes_at k key rest
  end.

Definition show_delta (z : Z) : string :=
  (if z <? 0 then "-" else "+") ++ decimal (Z.abs_nat z).

(** [tracemalloc.start(n)] takes a C [int] between 1 and 65535. *)
Definition refuse_nframe (n : Z) : option exception :=
  if (n <? - 2 ^ 31) || (2 ^ 31 - 1 <? n)
  then Some (OverflowError "Python int too large to convert to C int")
  else if (n <? 1) || (65535 <? n)
  then Some (ValueError "the number of frames must be in range [1; 65535]")
  else None.

(** The size of a site as a [size_t]. *)
Definition size_t (z : Z) : Z := Z.max 0 (Z.min z (2 ^ 64 - 1)).

#[export] Instance tracemalloc : Tracemalloc := {|
  Memory := list site;
  Snapshot := list site;
  StatisticDiff := string * Z;
  Frames := list string;
  start_error := refuse_nframe;
  discard := fun _ => [];
  snapshot_of := fun n m => map (fun st => mkSite (firstn (Z.to_nat n) (frames st))
                                                  (bytes st) (blocks st)) m;
  format := fun fr => fr;
  StatisticDiff_str := fun d => fst d ++ ": size_diff=" ++ show_delta (snd d);
|}.

(** The statistics of a snapshot, one per site. *)
Definition site_statistics (snap : list site) : list Statistic :=
  map (fun st => mkStatistic (frames st) (size_t (bytes st)) (blocks st)) snap.

Definition site_statistics_size (snap : list site) (stat : Statistic) :
  In stat (site_statistics snap) -> Z.abs (size stat) < 2 ^ 1024.
Proof.
  unfold site_statistics. rewrite in_map_iff. intros (st & <- & _).
  cbn [size]. unfold size_t.
  assert (2 ^ 64 < 2 ^ 1024) by (apply Z.pow_lt_mono_r; lia).
  lia.
Qed.

#[export] Instance snapshot_ops : SnapshotOps := {|
  compare_to := fun cur old k =>
    map (fun st => (key_of k st, bytes_at k (key_of k st) cur
                                 - bytes_at k (key_of k st) old)) cur;
  statistics := fun snap _ => site_statistics snap;
  Statistic_str := fun st => hd "?" (traceback st) ++ ": size=" ++ decimal (Z.to_nat (size st));
  statistics_size := fun snap _ => site_statistics_size snap;
|}.

#[export] Instance gc : GarbageCollector := {|
  collect := fun m => filter (fun st => 0 <? blocks st) m;
|}.

(** A tracer as [MemoryTracer(top=2, trace=1)] builds it. *)
Definition tracer : MemoryTracer :=
  mkMemoryTracer 2 1 25 true false None None.

(** The same tracer, built with [disabled=True]. *)
Definition tracer_off : MemoryTracer :=
  mkMemoryTracer 2 1 25 true true None None.

Definition heap0 : Memory :=
  [mkSite ["app.py:3"; "main.py:1"] 4096 2; mkSite ["tmp.py:9"] 0 0].

Definition heap1 : Memory :=
  [mkSite ["app.py:7"; "main.py:1"] 9216 3;
   mkSite ["app.py:3"; "main.py:1"] 4096 2;
   mkSite ["lib.py:5"] 256 1;
   mkSite ["tmp.py:9"] 0 0].

Definition heap2 : Memory :=
  [mkSite ["app.py:7"; "main.py:1"] 9216 3;
   mkSite ["lib.py:5"] 5120 4;
   mkSite ["app.py:3"; "main.py:1"] 4096 2].

(** A process in which nobody is tracing yet. *)
Definition idle : world := mkWorld false 1 heap0 [].

(** A process in which some other component has tracing switched on. *)
Definition busy : world := mkWorld true 1 heap0 [].

(** A guarded block that fails. *)
Definition failing_body (mt : retval) : M unit := raise (Exception "boom").

(** The enabled tracer at a checkpoint of a running session: started when
    the live allocations were [heap0], about to call [update()] now that
    they are [heap1]. *)
Definition at_checkpoint : state :=
  user_code heap1 (snd (start (mkState tracer idle))).

(** A tracer built with a frame count the facility refuses. *)
Definition tracer_nframe0 : MemoryTracer :=
  __init__ (Some 2) (Some 1) (Some 0) None None.

(** Two rows of a comparison, as the fake facility would return them. *)
Definition two_rows : list StatisticDiff := [("app.py", 9216); ("lib.py", 256)].

End Fake.

(** * Properties *)

Section TracerFacts.

Context `{TM : Tracemalloc} `{!SnapshotOps} `{!GarbageCollector}.

(** ** Slices *)

Lemma slice_to_length {A : Type} (l : list A) (stop : Z) :
  0 <= stop -> Z.of_nat (List.length (slice_to l stop)) <= stop.
Proof.
  intros Hstop. unfold slice_to.
  destruct (stop <? 0) eqn:E; [apply Z.ltb_lt in E; lia|].
  rewrite length_firstn. lia.
Qed.

(** A negative [stop], which the configuration is not meant to hold, drops
    rows from the end instead of bounding their number. *)
Lemma slice_to_negative {A : Type} (l : list A) (stop : Z) :
  stop < 0 ->
  slice_to l stop = firstn (List.length l - Z.to_nat (- stop)) l.
Proof.
  intros Hneg. unfold slice_to.
  destruct (stop <? 0) eqn:E; [| apply Z.ltb_ge in E; lia].
  f_equal. lia.
Qed.

(** The rank column: [" 1"], ..., [" 9"], ["10"], ..., ["100"]. *)
Example format_rank_widths :
  map format_rank [1; 9; 10; 100]%nat = [" 1"; " 9"; "10"; "100"].
Proof. reflexivity. Qed.

(** ** Event traces *)

Lemma emitted_app (s s' : state) (new : list event) :
  events (env s') = (events (env s) ++ new)%list -> emitted s s' = new.
Proof.
  intros E. unfold emitted. rewrite E.
  rewrite skipn_app, skipn_all, Nat.sub_diag. reflexivity.
Qed.

Lemma logged_app (fmt : string) (l1 l2 : list event) :
  logged fmt (l1 ++ l2) = (logged fmt l1 ++ logged fmt l2)%list.
Proof. unfold logged. apply flat_map_app. Qed.

Lemma logged_traceback_events (l : list Statistic) :
  logged traceback_fmt (map traceback_event l) =
  map (fun stat => [PyInt (count stat); PyFloat (kib (size stat));
                    PyStr (String.concat nl (format (traceback stat)))]) l.
Proof.
  induction l as [| x l IH]; [reflexivity|].
  change (map traceback_event (x :: l))
    with ([traceback_event x] ++ map traceback_event l)%list.
  rewrite logged_app, IH. reflexivity.
Qed.

Lemma logged_other_traceback_events (fmt : string) (l : list Statistic) :
  String.eqb traceback_fmt fmt = false ->
  logged fmt (map traceback_event l) = [].
Proof.
  intros E. induction l as [| x l IH]; [reflexivity|].
  cbn [map logged flat_map traceback_event]. rewrite E. exact IH.
Qed.

(** ** Sizes in KiB *)

Lemma bit_length_bound (a b : Z) : 0 <= a < 2 ^ b -> 0 <= b -> bit_length a <= Z.max 1 b.
Proof.
  intros [Ha Hlt] Hb. unfold bit_length.
  destruct (Z.eq_dec a 0) as [-> | Hnz]; [cbn; lia|].
  assert (Z.log2 a < b) by (apply Z.log2_lt_pow2; lia).
  lia.
Qed.

(** A size below 2^1024 divides by 1024 without overflow. *)
Lemma kib_in_range (n : Z) : Z.abs n < 2 ^ 1024 -> kib_overflows n = false.
Proof.
  intros Hn. unfold kib_overflows, nearest_double.
  pose proof (bit_length_bound (Z.abs n) 1024 (conj (Z.abs_nonneg n) Hn) ltac:(lia))
    as Hbits.
  destruct (bit_length (Z.abs n) <=? 53) eqn:Hsmall; cbn [snd].
  - apply Z.leb_le in Hsmall. apply Z.ltb_ge. lia.
  - destruct (round_half_even (Z.abs n) (2 ^ (bit_length (Z.abs n) - 53)) =? 2 ^ 53);
      cbn [snd]; apply Z.ltb_ge; lia.
Qed.

Lemma slice_to_incl {A : Type} (l : list A) (stop : Z) (x : A) :
  In x (slice_to l stop) -> In x l.
Proof.
  unfold slice_to.
  destruct (stop <? 0); intros Hin;
    match type of Hin with
    | In _ (firstn ?n _) =>
        rewrite <- (firstn_skipn n l); apply in_or_app; left; exact Hin
    end.
Qed.

(** ** The loop of [update] *)

Lemma for_each_log_traceback (l : list Statistic) (t : MemoryTracer) (w : world) :
  Forall (fun stat => Z.abs (size stat) < 2 ^ 1024) l ->
  for_each l log_traceback (mkState t w) =
  (Return tt,
   mkState t (mkWorld (tracing w) (traceback_limit w) (memory w)
                      (events w ++ map traceback_event l))).
Proof.
  revert w. induction l as [| x l IH]; intros w Hall.
  - cbn. rewrite app_nil_r. now destruct w.
  - apply Forall_cons_iff in Hall. destruct Hall as [Hx Hl].
    cbn [for_each]. unfold bind at 1.
    unfold log_traceback at 1, truediv_1024, bind, ret, log, emit.
    rewrite (kib_in_range _ Hx).
    cbn [self env]. rewrite (IH _ Hl). cbn.
    rewrite <- app_assoc. reflexivity.
Qed.

(** ** What each method does, path by path *)

Ltac step_method :=
  unfold bind, get_self, ret, raise, log, is_tracing, tracemalloc_start,
    tracemalloc_stop, take_snapshot, gc_collect, set__start, set__prev,
    snapshot_compare_to, emit;
  cbn [self env tracing traceback_limit memory events top trace nframe
       gccollect disabled _start _prev fst snd].

(** Follow the method down the path that the hypotheses select. *)
Ltac run_method :=
  step_method;
  repeat (match goal with
          | H : ?c = _ |- context [if ?c then _ else _] => rewrite H
          | H : ?c = _ |- context [match ?c with _ => _ end] => rewrite H
          end; step_method).

Lemma start_disabled (s : state) :
  disabled (self s) = true -> start s = (Return RSelf, s).
Proof. intros Hd. unfold start. now run_method. Qed.

Lemma start_already_tracing (t : MemoryTracer) (w : world) :
  disabled t = false -> tracing w = true ->
  start (mkState t w) =
  (Raise (RuntimeError already_tracing_msg), mkState t (emits [EvIsTracing] w)).
Proof. intros Hd Ht. unfold start. run_method. unfold emits. now rewrite Ht. Qed.

Lemma start_rejected (t : MemoryTracer) (w : world) (e : exception) :
  disabled t = false -> tracing w = false -> start_error (nframe t) = Some e ->
  start (mkState t w) =
  (Raise e,
   mkState t (emits [EvIsTracing; EvLog start_msg []; EvStart (nframe t)] w)).
Proof.
  intros Hd Ht Hv. unfold start. run_method.
  unfold emits. now rewrite Ht, <- !app_assoc.
Qed.

Lemma start_refusal (n : Z) :
  valid_nframe n = false -> exists e, start_error n = Some e.
Proof.
  unfold valid_nframe. destruct (start_error n) as [e |]; [eauto | discriminate].
Qed.

Lemma start_engages (t : MemoryTracer) (w : world) :
  disabled t = false -> tracing w = false -> valid_nframe (nframe t) = true ->
  let b := snapshot_of (nframe t) (memory w) in
  start (mkState t w) =
  (Return RNone,
   mkState (with_snapshots t (Some b) (Some b))
           (mkWorld true (nframe t) (memory w)
                    (events w ++ [EvIsTracing; EvLog start_msg [];
                                  EvStart (nframe t); EvTakeSnapshot]))).
Proof.
  intros Hd Ht Hv b. unfold valid_nframe in Hv.
  destruct (start_error (nframe t)) as [e |] eqn:Hse; [discriminate Hv|].
  unfold start. run_method.
  unfold with_snapshots. now rewrite <- !app_assoc.
Qed.

Lemma stop_disabled (s : state) :
  disabled (self s) = true -> stop s = (Return RNone, s).
Proof. intros Hd. unfold stop. now run_method. Qed.

Lemma stop_enabled (t : MemoryTracer) (w : world) :
  disabled t = false ->
  stop (mkState t w) =
  (Return RNone,
   mkState (with_snapshots t None None)
           (mkWorld false (traceback_limit w)
                    (if tracing w then discard (memory w) else memory w)
                    (events w ++ [EvStop; EvLog stop_msg []]))).
Proof.
  intros Hd. unfold stop. destruct (tracing w) eqn:Ht; run_method;
    unfold with_snapshots; now rewrite <- !app_assoc.
Qed.

Lemma update_disabled (s : state) :
  disabled (self s) = true -> update s = (Return RNone, s).
Proof. intros Hd. unfold update. now run_method. Qed.

Lemma update_not_tracing (t : MemoryTracer) (w : world) :
  disabled t = false -> tracing w = false ->
  exists msg,
    update (mkState t w) =
    (Raise (RuntimeError msg),
     mkState t (mkWorld false (traceback_limit w) (gc_pass t (memory w))
                        (events w ++ collect_events t ++ [EvTakeSnapshot]))).
Proof.
  intros Hd Ht. eexists. unfold update, gc_pass, collect_events.
  destruct (gccollect t) eqn:Hgc; run_method;
    now rewrite <- ?app_assoc.
Qed.

Lemma update_without_snapshot (t : MemoryTracer) (w : world) :
  disabled t = false -> tracing w = true ->
  _start t = None \/ _prev t = None ->
  exists msg,
    update (mkState t w) =
    (Raise (AttributeError msg),
     mkState t (mkWorld true (traceback_limit w) (gc_pass t (memory w))
                        (events w ++ collect_events t ++ [EvTakeSnapshot]))).
Proof.
  intros Hd Ht Hnone. eexists. unfold update, gc_pass, collect_events.
  destruct (_start t) as [b |] eqn:Hb; destruct (_prev t) as [p |] eqn:Hp;
    try (destruct Hnone; discriminate);
    destruct (gccollect t) eqn:Hgc; run_method;
    now rewrite <- ?app_assoc.
Qed.

Lemma update_checkpoint (t : MemoryTracer) (w : world) (b p : Snapshot) :
  disabled t = false -> tracing w = true ->
  _start t = Some b -> _prev t = Some p ->
  let cur := snapshot_of (traceback_limit w) (gc_pass t (memory w)) in
  update (mkState t w) =
  (Return RNone,
   mkState (with_snapshots t (Some b) (Some cur))
           (mkWorld true (traceback_limit w) (gc_pass t (memory w))
                    (events w ++ collect_events t ++ report_events t b p cur))).
Proof.
  intros Hd Ht Hb Hp cur. subst cur.
  assert (Hsizes : forall snap,
             Forall (fun stat => Z.abs (size stat) < 2 ^ 1024)
                    (slice_to (statistics snap Traceback) (trace t))).
  { intros snap. apply Forall_forall. intros stat Hin.
    apply (statistics_size snap Traceback), (slice_to_incl _ _ _ Hin). }
  unfold update, gc_pass, collect_events, report_events, with_snapshots.
  destruct (gccollect t) eqn:Hgc; run_method;
    rewrite (for_each_log_traceback _ _ _ (Hsizes _)); run_method;
    rewrite ?Hd, ?Hgc, ?Hb, <- ?app_assoc; reflexivity.
Qed.

(** ** Frame facts: what no method ever touches *)

(** Split on the path a call to [start] takes from [mkState t w]. *)
Ltac start_paths t w :=
  let Hd := fresh "Hd" in
  let Ht := fresh "Ht" in
  let Hv := fresh "Hv" in
  destruct (disabled t) eqn:Hd;
  [ rewrite (start_disabled (mkState t w) Hd)
  | destruct (tracing w) eqn:Ht;
    [ rewrite (start_already_tracing t w Hd Ht)
    | destruct (valid_nframe (nframe t)) eqn:Hv;
      [ rewrite (start_engages t w Hd Ht Hv)
      | let err := fresh "err" in
        let Herr := fresh "Herr" in
        destruct (start_refusal (nframe t) Hv) as [err Herr];
        rewrite (start_rejected t w err Hd Ht Herr) ] ] ].

(** Split on the path a call to [update] takes from [mkState t w]. *)
Ltac update_paths t w :=
  let Hd := fresh "Hd" in
  let Ht := fresh "Ht" in
  let Hb := fresh "Hb" in
  let Hp := fresh "Hp" in
  let msg := fresh "msg" in
  let E := fresh "E" in
  let b := fresh "b" in
  let p := fresh "p" in
  destruct (disabled t) eqn:Hd;
  [ rewrite (update_disabled (mkState t w) Hd)
  | destruct (tracing w) eqn:Ht;
    [ destruct (_start t) as [b |] eqn:Hb;
      [ destruct (_prev t) as [p |] eqn:Hp;
        [ rewrite (update_checkpoint t w _ _ Hd Ht Hb Hp)
        | destruct (update_without_snapshot t w Hd Ht (or_intror Hp)) as [msg E];
          rewrite E ]
      | destruct (update_without_snapshot t w Hd Ht (or_introl Hb)) as [msg E];
        rewrite E ]
    | destruct (update_not_tracing t w Hd Ht) as [msg E]; rewrite E ] ].

Lemma start_config (s : state) : config (self (snd (start s))) = config (self s).
Proof.
  destruct s as [t w]. unfold config.
  start_paths t w; cbn; rewrite ?Hd; reflexivity.
Qed.

Lemma stop_config (s : state) : config (self (snd (stop s))) = config (self s).
Proof.
  destruct s as [t w]. unfold config.
  destruct (disabled t) eqn:Hd.
  - rewrite (stop_disabled (mkState t w) Hd). cbn. now rewrite Hd.
  - rewrite (stop_enabled t w Hd). cbn. now rewrite Hd.
Qed.

Lemma update_config (s : state) : config (self (snd (update s))) = config (self s).
Proof.
  destruct s as [t w]. unfold config.
  update_paths t w; cbn; rewrite ?Hd; reflexivity.
Qed.

Lemma update_keeps_baseline (s : state) :
  _start (self (snd (update s))) = _start (self s).
Proof.
  destruct s as [t w].
  update_paths t w; cbn; rewrite ?Hb; reflexivity.
Qed.

Lemma run_config (cs : list call) (s : state) :
  config (self (run cs s)) = config (self s).
Proof.
  revert s. induction cs as [| c cs IH]; intros s; [reflexivity|].
  cbn [run fold_left]. fold (run cs (perform c s)). rewrite IH.
  destruct c; cbn [perform].
  - apply start_config.
  - apply stop_config.
  - apply update_config.
  - reflexivity.
Qed.

Lemma config_disabled (t t' : MemoryTracer) :
  config t = config t' -> disabled t = disabled t'.
Proof. unfold config. now intros [= _ _ _ _ E]. Qed.

Lemma start_returned (s : state) (r : retval) :
  fst (start s) = Return r ->
  (disabled (self s) = true /\ r = RSelf) \/
  (disabled (self s) = false /\ r = RNone /\
   tracing (env s) = false /\ valid_nframe (nframe (self s)) = true).
Proof.
  destruct s as [t w]. cbn [self env].
  start_paths t w; cbn [fst]; intros E; try discriminate E.
  - left. now injection E as <-.
  - right. now injection E as <-.
Qed.

(** ** The session guard, the lenient stop and the disabled switch *)

(** C6, disabled short-circuit.  On a tracer built with [disabled=True]
    each of [start()], [update()] and [stop()] returns at once and hands
    back the very state it was given: the event trace is the same, so no
    call reached [tracemalloc], [gc] or the logger, and the two snapshot
    attributes are untouched. *)
Theorem disabled_short_circuit (s : state) :
  disabled (self s) = true ->
  start s = (Return RSelf, s) /\
  update s = (Return RNone, s) /\
  stop s = (Return RNone, s) /\
  emitted s (snd (start s)) = [] /\
  emitted s (snd (update s)) = [] /\
  emitted s (snd (stop s)) = [].
Proof.
  intros Hd.
  rewrite (start_disabled s Hd), (update_disabled s Hd), (stop_disabled s Hd).
  cbn [snd]. repeat split; apply emitted_app; now rewrite app_nil_r.
Qed.

(** C3, exclusive session.  When [tracemalloc.is_tracing()] answers true,
    [start()] on an enabled tracer raises the "already tracing" error
    having done nothing but ask that question: [tracemalloc.start] is not
    called, nothing is logged, the facility and the tracer's snapshot
    attributes stay as they were.  In particular a [start()] that follows
    a successful [start()] without a [stop()] in between raises it. *)
Theorem exclusive_session (s : state) :
  disabled (self s) = false ->
  tracing (env s) = true ->
  start s = (Raise (RuntimeError already_tracing_msg),
             mkState (self s) (emits [EvIsTracing] (env s))) /\
  emitted s (snd (start s)) = [EvIsTracing] /\
  _start (self (snd (start s))) = _start (self s) /\
  _prev (self (snd (start s))) = _prev (self s) /\
  (forall s0 : state,
      fst (start s0) = Return RNone ->
      fst (start (snd (start s0))) = Raise (RuntimeError already_tracing_msg) /\
      self (snd (start (snd (start s0)))) = self (snd (start s0)) /\
      emitted (snd (start s0)) (snd (start (snd (start s0)))) = [EvIsTracing]).
Proof.
  intros Hd Ht.
  assert (Hraise : forall t w, disabled t = false -> tracing w = true ->
            start (mkState t w) =
            (Raise (RuntimeError already_tracing_msg),
             mkState t (emits [EvIsTracing] w)) /\
            emitted (mkState t w) (snd (start (mkState t w))) = [EvIsTracing]).
  { intros t w Hd' Ht'. rewrite (start_already_tracing t w Hd' Ht').
    split; [reflexivity|]. now apply emitted_app. }
  destruct s as [t w]. cbn [self env] in *.
  destruct (Hraise t w Hd Ht) as [E Hev].
  split; [exact E|]. split; [exact Hev|].
  rewrite E. cbn [snd self]. do 2 (split; [reflexivity|]).
  intros [t0 w0] Hok.
  destruct (start_returned _ _ Hok) as [[_ Habs] | (Hd0 & _ & Ht0 & Hv0)];
    [discriminate Habs|].
  cbn [self env] in Hd0, Ht0, Hv0.
  rewrite (start_engages t0 w0 Hd0 Ht0 Hv0). cbn [snd].
  match goal with
  | |- context [start (mkState ?t1 ?w1)] =>
      destruct (Hraise t1 w1 Hd0 eq_refl) as [E1 Hev1]
  end.
  rewrite E1 in *. cbn [fst snd self]. now repeat split.
Qed.

(** C10, the value [start()] returns.  [start()] hands back the tracer
    itself exactly on the disabled path; an enabled tracer whose [start()]
    succeeds gets [None].  The object bound by [with ... as mt] comes from
    [__enter__], which returns [self] whenever [start()] returns, whatever
    [start()] returned. *)
Theorem start_return_value (s : state) (r : retval) :
  fst (start s) = Return r ->
  (r = RSelf <-> disabled (self s) = true) /\
  (r = RNone <-> disabled (self s) = false) /\
  __enter__ s = (Return RSelf, snd (start s)).
Proof.
  intros Hr.
  assert (Henter : __enter__ s = (Return RSelf, snd (start s))).
  { unfold __enter__, bind, ret. destruct (start s) as [[v | e] s'].
    - reflexivity.
    - discriminate Hr. }
  destruct (start_returned s r Hr) as [[Hd ->] | (Hd & -> & _)]; rewrite Hd;
    repeat split; auto; discriminate.
Qed.

(** C4, lenient stop.  Whatever calls came before (on the tracer or on the
    facility behind its back), [stop()] on an enabled tracer returns
    normally; afterwards both snapshot attributes are [None] and tracing is
    off, [tracemalloc.stop()] having been called and the stop line
    logged. *)
Theorem lenient_stop (prior : list call) (s0 : state) :
  disabled (self s0) = false ->
  fst (stop (run prior s0)) = Return RNone /\
  _start (self (snd (stop (run prior s0)))) = None /\
  _prev (self (snd (stop (run prior s0)))) = None /\
  tracing (env (snd (stop (run prior s0)))) = false /\
  emitted (run prior s0) (snd (stop (run prior s0))) = [EvStop; EvLog stop_msg []].
Proof.
  intros Hd0.
  assert (Hd : disabled (self (run prior s0)) = false).
  { rewrite <- Hd0. apply config_disabled, run_config. }
  destruct (run prior s0) as [t w]. cbn [self] in Hd.
  rewrite (stop_enabled t w Hd). cbn [fst snd self env _start _prev tracing with_snapshots].
  repeat split. now apply emitted_app.
Qed.

(** ** A session of checkpoints *)

Lemma last_cons {A : Type} (a d : A) (l : list A) :
  last (a :: l) d = last l a.
Proof.
  revert a d. induction l as [| b l IH]; intros a d; [reflexivity|].
  change (last (a :: b :: l) d) with (last (b :: l) d).
  now rewrite !IH.
Qed.

(** After any number of checkpoints in a running session the baseline is
    still the one the session began with, the previous snapshot is the one
    taken by the latest checkpoint, and tracing is still on. *)
Lemma updates_session (ms : list Memory) (t : MemoryTracer) (w : world)
    (b p : Snapshot) :
  disabled t = false -> tracing w = true ->
  _start t = Some b -> _prev t = Some p ->
  exists w',
    updates ms (mkState t w) =
    mkState (with_snapshots t (Some b)
               (Some (last (map (fun m => snapshot_of (traceback_limit w) (gc_pass t m)) ms) p)))
            w' /\
    tracing w' = true /\
    traceback_limit w' = traceback_limit w.
Proof.
  revert t w p. induction ms as [| m ms IH]; intros t w p Hd Ht Hb Hp.
  - exists w. cbn. unfold with_snapshots. rewrite <- Hb, <- Hp.
    now destruct t.
  - cbn [updates]. unfold user_code. cbn [self env].
    rewrite (update_checkpoint t (allocate m w) b p Hd Ht Hb Hp).
    cbn [snd allocate traceback_limit memory].
    match goal with
    | |- context [updates ms (mkState ?t1 ?w1)] =>
        destruct (IH t1 w1 (snapshot_of (traceback_limit w) (gc_pass t m))
                    Hd eq_refl eq_refl eq_refl) as (w' & E & Ht' & Hl')
    end.
    exists w'. rewrite E. cbn [traceback_limit] in *.
    split; [| now split].
    cbn [map]. rewrite last_cons. reflexivity.
Qed.

(** C1, baseline stability.  Take an enabled tracer whose [start()]
    succeeded, any number of checkpoints [ms] already made, and one more
    [update()] made when the live allocations are [m].  That [update()]
    returns, logs exactly one cumulative report, and the report is the
    comparison by ["filename"] of the snapshot it has just taken against
    the snapshot taken in [start()], cut to [top] rows.  The [_start]
    attribute still holds that first snapshot afterwards; no [update()],
    from any state, changes [_start], and [stop()] resets it to [None]. *)
Theorem baseline_stability (s0 : state) (ms : list Memory) (m : Memory) :
  fst (start s0) = Return RNone ->
  let t := self s0 in
  let base := snapshot_of (nframe t) (memory (env s0)) in
  let before := user_code m (updates ms (snd (start s0))) in
  let current := snapshot_of (nframe t) (gc_pass t m) in
  _start (self (snd (start s0))) = Some base /\
  fst (update before) = Return RNone /\
  logged cumulative_fmt (emitted before (snd (update before))) =
    [[PyStr (_format_stats (slice_to (compare_to current base Filename) (top t)))]] /\
  _start (self (snd (update before))) = Some base /\
  (forall s : state, _start (self (snd (update s))) = _start (self s)) /\
  _start (self (snd (stop (snd (update before))))) = None.
Proof.
  intros Hok t base before current.
  destruct s0 as [t0 w0]. cbn [self env] in *. subst t current.
  destruct (start_returned _ _ Hok) as [[_ Habs] | (Hd & _ & Ht & Hv)];
    [discriminate Habs|].
  cbn [self env] in Hd, Ht, Hv.
  subst before. rewrite (start_engages t0 w0 Hd Ht Hv). cbn [snd self _start with_snapshots].
  split; [reflexivity|].
  match goal with
  | |- context [updates ms (mkState ?t1 ?w1)] =>
      destruct (updates_session ms t1 w1 base base Hd eq_refl eq_refl eq_refl)
        as (w' & E & Ht' & Hl')
  end.
  rewrite E. cbn [traceback_limit] in Hl'. unfold user_code. cbn [self env].
  match goal with
  | |- context [update (mkState ?t1 ?w1)] =>
      rewrite (update_checkpoint t1 w1 base _ Hd Ht' eq_refl eq_refl)
  end.
  cbn [fst snd self env _start with_snapshots allocate traceback_limit memory].
  rewrite Hl'.
  split; [reflexivity|]. split.
  - erewrite emitted_app by (cbn [env events allocate]; reflexivity).
    rewrite logged_app. unfold report_events. rewrite logged_app.
    rewrite (logged_other_traceback_events cumulative_fmt) by reflexivity.
    unfold collect_events, gc_pass, with_snapshots. cbn [gccollect top].
    destruct (gccollect t0); reflexivity.
  - split; [reflexivity|]. split; [apply update_keeps_baseline|].
    match goal with
    | |- context [stop (mkState ?t1 ?w1)] => rewrite (stop_enabled t1 w1 Hd)
    end.
    reflexivity.
Qed.

(** C2, incremental chaining.  In the same setting, the one incremental
    report that the [update()] logs is the comparison by ["lineno"] of the
    snapshot it has just taken against the snapshot taken by the
    checkpoint before it, or against the snapshot of [start()] when there
    was none, cut to [top] rows; and when the [update()] ends [_prev]
    holds the snapshot it has just taken. *)
Theorem incremental_chaining (s0 : state) (ms : list Memory) (m : Memory) :
  fst (start s0) = Return RNone ->
  let t := self s0 in
  let base := snapshot_of (nframe t) (memory (env s0)) in
  let previous :=
    last (map (fun m' => snapshot_of (nframe t) (gc_pass t m')) ms) base in
  let before := user_code m (updates ms (snd (start s0))) in
  let current := snapshot_of (nframe t) (gc_pass t m) in
  _prev (self (updates ms (snd (start s0)))) = Some previous /\
  fst (update before) = Return RNone /\
  logged incremental_fmt (emitted before (snd (update before))) =
    [[PyStr (_format_stats (slice_to (compare_to current previous Lineno) (top t)))]] /\
  _prev (self (snd (update before))) = Some current.
Proof.
  intros Hok t base previous before current.
  destruct s0 as [t0 w0]. cbn [self env] in *. subst t current.
  destruct (start_returned _ _ Hok) as [[_ Habs] | (Hd & _ & Ht & Hv)];
    [discriminate Habs|].
  cbn [self env] in Hd, Ht, Hv.
  subst before. rewrite (start_engages t0 w0 Hd Ht Hv). cbn [snd].
  match goal with
  | |- context [updates ms (mkState ?t1 ?w1)] =>
      destruct (updates_session ms t1 w1 base base Hd eq_refl eq_refl eq_refl)
        as (w' & E & Ht' & Hl')
  end.
  rewrite E. cbn [traceback_limit] in Hl'. unfold user_code. cbn [self env].
  split; [reflexivity|].
  match goal with
  | |- context [update (mkState ?t1 ?w1)] =>
      rewrite (update_checkpoint t1 w1 base previous Hd Ht' eq_refl eq_refl)
  end.
  cbn [fst snd self env _prev with_snapshots allocate traceback_limit memory].
  rewrite Hl'.
  split; [reflexivity|]. split; [| reflexivity].
  erewrite emitted_app by (cbn [env events allocate]; reflexivity).
  rewrite logged_app. unfold report_events. rewrite logged_app.
  rewrite (logged_other_traceback_events incremental_fmt) by reflexivity.
  unfold collect_events, gc_pass, with_snapshots. cbn [gccollect top].
  destruct (gccollect t0); reflexivity.
Qed.

(** ** The reports of one checkpoint *)

Lemma report_events_logs (t : MemoryTracer) (b p cur : Snapshot) (e : event) :
  In e (report_events t b p cur) ->
  e = EvTakeSnapshot \/ exists fmt args, e = EvLog fmt args.
Proof.
  unfold report_events. rewrite in_app_iff, in_map_iff.
  intros [Hin | (stat & <- & _)].
  - cbn in Hin. decompose [or] Hin; subst; eauto; contradiction.
  - right. unfold traceback_event. eauto.
Qed.

Lemma report_tail_logs (t : MemoryTracer) (b p cur : Snapshot) (e : event) :
  In e (tl (report_events t b p cur)) -> exists fmt args, e = EvLog fmt args.
Proof.
  unfold report_events. cbn [app tl]. intros Hin.
  destruct Hin as [<- | [<- | [<- | Hin]]]; eauto.
  apply in_map_iff in Hin. destruct Hin as (stat & <- & _).
  unfold traceback_event. eauto.
Qed.

(** C7, row truncation.  With [top] and [trace] non-negative, as the
    configuration requires, a checkpoint logs exactly one cumulative, one
    incremental and one current-state report; each is the formatting of a
    prefix of the rows the facility returned, and that prefix has at most
    [top] rows however many rows the facility returned.  The detailed
    traceback reports logged number at most [trace]. *)
Theorem row_truncation (s : state) (b p : Snapshot) :
  0 <= top (self s) ->
  0 <= trace (self s) ->
  disabled (self s) = false ->
  tracing (env s) = true ->
  _start (self s) = Some b ->
  _prev (self s) = Some p ->
  let t := self s in
  let cur := snapshot_of (traceback_limit (env s)) (gc_pass t (memory (env s))) in
  let cumulative := slice_to (compare_to cur b Filename) (top t) in
  let incremental := slice_to (compare_to cur p Lineno) (top t) in
  let present := slice_to (statistics cur Filename) (top t) in
  let new := emitted s (snd (update s)) in
  fst (update s) = Return RNone /\
  logged cumulative_fmt new = [[PyStr (_format_stats cumulative)]] /\
  logged incremental_fmt new = [[PyStr (_format_stats incremental)]] /\
  logged current_fmt new = [[PyStr (_format_stats present)]] /\
  Z.of_nat (List.length cumulative) <= top t /\
  Z.of_nat (List.length incremental) <= top t /\
  Z.of_nat (List.length present) <= top t /\
  Z.of_nat (List.length (logged traceback_fmt new)) <= trace t.
Proof.
  intros Htop Htrace Hd Ht Hb Hp t cur cumulative incremental present new.
  destruct s as [t0 w]. cbn [self env] in *. subst t new.
  rewrite (update_checkpoint t0 w b p Hd Ht Hb Hp). cbn [fst snd].
  erewrite emitted_app by (cbn [env events]; reflexivity).
  fold cur.
  assert (Hgc : forall fmt, logged fmt (collect_events t0) = []).
  { intros fmt. unfold collect_events. now destruct (gccollect t0). }
  split; [reflexivity|].
  rewrite !logged_app, !Hgc. unfold report_events. rewrite !logged_app.
  rewrite (logged_other_traceback_events cumulative_fmt),
          (logged_other_traceback_events incremental_fmt),
          (logged_other_traceback_events current_fmt) by reflexivity.
  rewrite logged_traceback_events.
  repeat (split; [reflexivity || (apply slice_to_length; assumption)|]).
  match goal with
  | |- context [logged traceback_fmt (EvTakeSnapshot :: ?l)] =>
      change (logged traceback_fmt (EvTakeSnapshot :: l)) with (@nil (list pyval))
  end.
  cbn [app]. rewrite length_map.
  apply slice_to_length. assumption.
Qed.

(** C8, the garbage collector runs before the snapshot.  On an enabled
    tracer with [gccollect] true, every [update()] first calls
    [gc.collect()], then [tracemalloc.take_snapshot()], and calls neither
    again; the allocations snapshotted are those the collection left, and
    on success that snapshot is what [_prev] receives.  With [gccollect]
    false, [update()] never calls [gc.collect()] and snapshots the
    allocations as they are. *)
Theorem gc_before_snapshot (s : state) :
  disabled (self s) = false ->
  (gccollect (self s) = true ->
   (exists rest,
       emitted s (snd (update s)) = EvCollect :: EvTakeSnapshot :: rest /\
       ~ In EvCollect rest /\ ~ In EvTakeSnapshot rest) /\
   memory (env (snd (update s))) = collect (memory (env s)) /\
   (fst (update s) = Return RNone ->
    _prev (self (snd (update s))) =
    Some (snapshot_of (traceback_limit (env s)) (collect (memory (env s)))))) /\
  (gccollect (self s) = false ->
   ~ In EvCollect (emitted s (snd (update s))) /\
   memory (env (snd (update s))) = memory (env s) /\
   (fst (update s) = Return RNone ->
    _prev (self (snd (update s))) =
    Some (snapshot_of (traceback_limit (env s)) (memory (env s))))).
Proof.
  intros Hdis. destruct s as [t w]. cbn [self env] in *.
  split; intros Hgc.
  - update_paths t w; try discriminate Hdis;
      unfold collect_events, gc_pass; rewrite Hgc;
      cbn [fst snd self env memory _prev with_snapshots].
    + split; [| split; reflexivity].
      exists (tl (report_events t b p (snapshot_of (traceback_limit w) (collect (memory w))))).
      split; [apply emitted_app; reflexivity|].
      split; intros Hin; apply report_tail_logs in Hin;
        destruct Hin as (fmt & args & Hin); discriminate Hin.
    + split; [| split; [reflexivity | discriminate]].
      exists []. split; [now apply emitted_app | split; intros []].
    + split; [| split; [reflexivity | discriminate]].
      exists []. split; [now apply emitted_app | split; intros []].
    + split; [| split; [reflexivity | discriminate]].
      exists []. split; [now apply emitted_app | split; intros []].
  - update_paths t w; try discriminate Hdis;
      unfold collect_events, gc_pass; rewrite Hgc;
      cbn [fst snd self env memory _prev with_snapshots app];
      (split; [| split; [reflexivity | reflexivity || discriminate]]);
      (erewrite emitted_app by (cbn [env events]; reflexivity)); intros Hin.
    + apply report_events_logs in Hin.
      destruct Hin as [Hin | (fmt & args & Hin)]; discriminate Hin.
    + destruct Hin as [Hin | []]; discriminate Hin.
    + destruct Hin as [Hin | []]; discriminate Hin.
    + destruct Hin as [Hin | []]; discriminate Hin.
Qed.

(** In a list sorted in descending order, nothing in a suffix is larger
    than anything in the prefix before it. *)
Lemma sorted_prefix_dominates {A : Type} (R : A -> A -> Prop) (l1 l2 : list A) :
  StronglySorted R (l1 ++ l2) ->
  forall x y, In x l1 -> In y l2 -> R x y.
Proof.
  induction l1 as [| a l1 IH]; intros Hs x y Hx Hy; [destruct Hx|].
  cbn [app] in Hs. apply StronglySorted_inv in Hs. destruct Hs as [Hs Hall].
  destruct Hx as [<- | Hx].
  - rewrite Forall_forall in Hall. apply Hall, in_or_app. now right.
  - now apply IH.
Qed.

Lemma round_half_even_scale (num den c : Z) :
  0 < den -> 0 < c ->
  round_half_even (num * c) (den * c) = round_half_even num den.
Proof.
  intros Hden Hc. unfold round_half_even.
  rewrite Z.div_mul_cancel_r by lia.
  rewrite Z.mul_mod_distr_r by lia.
  replace (2 * (num mod den * c)) with (2 * (num mod den) * c) by ring.
  rewrite <- (Zmult_compare_compat_r (2 * (num mod den)) den c) by lia.
  reflexivity.
Qed.

(** *** [kib] against the IEEE 754 specification of the standard library *)

Lemma iter_pos_iter {A : Type} (f : A -> A) (p : positive) (x : A) :
  iter_pos f p x = Pos.iter f x p.
Proof.
  revert x. induction p as [p IH | p IH |]; intros x; cbn [iter_pos Pos.iter].
  - rewrite !IH, !Pos.iter_swap. reflexivity.
  - rewrite !IH. reflexivity.
  - reflexivity.
Qed.

Lemma digits2_log2 (m : positive) : Zpos (digits2_pos m) = Z.log2 (Zpos m) + 1.
Proof.
  induction m as [m IH | m IH |]; cbn [digits2_pos].
  - rewrite Pos2Z.inj_succ, IH, Pos2Z.inj_xI, Z.log2_succ_double by lia. lia.
  - rewrite Pos2Z.inj_succ, IH, Pos2Z.inj_xO, Z.log2_double by lia. lia.
  - reflexivity.
Qed.

Lemma iter_xO (m d : positive) : Zpos (Pos.iter xO m d) = Zpos m * 2 ^ Zpos d.
Proof.
  apply (Pos.iter_ind _ xO m (fun d r => Zpos r = Zpos m * 2 ^ Zpos d)).
  - rewrite Pos2Z.inj_xO. lia.
  - intros p a' IH. rewrite Pos2Z.inj_xO, IH, Pos2Z.inj_succ, Z.pow_succ_r by lia. ring.
Qed.

Lemma shr_1_spec (mrs : shr_record) :
  0 <= shr_m mrs ->
  shr_m (shr_1 mrs) = shr_m mrs / 2 /\
  shr_r (shr_1 mrs) = Z.odd (shr_m mrs) /\
  shr_s (shr_1 mrs) = shr_r mrs || shr_s mrs.
Proof.
  destruct mrs as [m r s]. cbn [shr_m shr_r shr_s]. intros Hm.
  destruct m as [| [p | p |] | p]; try lia; cbn [shr_1 shr_m shr_r shr_s];
    rewrite <- ?Z.div2_div; repeat split.
Qed.

Lemma mod_pow2_split (a k : Z) :
  0 <= a -> 1 <= k ->
  a mod 2 ^ k = a mod 2 ^ (k - 1) + 2 ^ (k - 1) * Z.b2z (Z.odd (a / 2 ^ (k - 1))).
Proof.
  intros Ha Hk.
  replace (2 ^ k) with (2 ^ (k - 1) * 2).
  2:{ rewrite Z.mul_comm, <- Z.pow_succ_r by lia. f_equal. lia. }
  rewrite Z.rem_mul_r by (try apply Z.pow_nonzero; lia).
  f_equal. f_equal. rewrite Zmod_odd. now destruct (Z.odd _).
Qed.

Lemma shifted_steps (a : Z) (p : positive) :
  0 <= a ->
  shifted a (Zpos p) (Pos.iter shr_1 (Build_shr_record a false false) p).
Proof.
  intros Ha.
  apply (Pos.iter_ind _ shr_1 (Build_shr_record a false false)
           (fun p mrs => shifted a (Zpos p) mrs)).
  - destruct (shr_1_spec (Build_shr_record a false false) Ha) as (Hm & Hr & Hs).
    cbn [shr_m shr_r shr_s] in *. unfold shifted. rewrite Hm, Hr, Hs.
    change (2 ^ (1 - 1)) with 1. rewrite Z.div_1_r, Z.mod_1_r. now repeat split.
  - intros k mrs (Hm & Hr & Hs).
    assert (Hnn : 0 <= shr_m mrs).
    { rewrite Hm. apply Z.div_pos; [lia | apply Z.pow_pos_nonneg; lia]. }
    destruct (shr_1_spec mrs Hnn) as (Hm' & Hr' & Hs').
    unfold shifted. rewrite Hm', Hr', Hs', Hm, Hr, Hs.
    rewrite Pos2Z.inj_succ.
    replace (Z.succ (Zpos k) - 1) with (Zpos k) by lia.
    repeat split.
    + rewrite Z.div_div by (try apply Z.pow_pos_nonneg; lia).
      rewrite Z.pow_succ_r by lia. f_equal. ring.
    + rewrite (mod_pow2_split a (Zpos k)) by lia.
      pose proof (Z.mod_pos_bound a (2 ^ (Zpos k - 1)) ltac:(apply Z.pow_pos_nonneg; lia)).
      assert (0 < 2 ^ (Zpos k - 1)) by (apply Z.pow_pos_nonneg; lia).
      destruct (Z.odd (a / 2 ^ (Zpos k - 1))); cbn [Z.b2z orb].
      * symmetry. apply negb_true_iff, Z.eqb_neq. lia.
      * rewrite Z.mul_0_r, Z.add_0_r. reflexivity.
Qed.

Lemma round_of_shifted (a k : Z) (mrs : shr_record) :
  0 <= a -> 1 <= k -> shifted a k mrs ->
  round_nearest_even (shr_m mrs) (loc_of_shr_record mrs) = round_half_even a (2 ^ k).
Proof.
  intros Ha Hk (Hm & Hr & Hs). unfold round_half_even.
  rewrite (mod_pow2_split a k Ha Hk).
  pose proof (Z.mod_pos_bound a (2 ^ (k - 1)) ltac:(apply Z.pow_pos_nonneg; lia)) as Hlow.
  assert (Hpow : 2 ^ k = 2 * 2 ^ (k - 1)).
  { rewrite <- Z.pow_succ_r by lia. f_equal. lia. }
  destruct mrs as [m r s]. cbn [shr_m shr_r shr_s] in *. subst m.
  rewrite <- Hr.
  destruct r, s; cbn [loc_of_shr_record round_nearest_even Z.b2z].
  - symmetry in Hs. apply negb_true_iff, Z.eqb_neq in Hs.
    replace (2 * (a mod 2 ^ (k - 1) + 2 ^ (k - 1) * 1) ?= 2 ^ k) with Gt; [reflexivity|].
    symmetry. apply Z.compare_gt_iff. lia.
  - symmetry in Hs. apply negb_false_iff, Z.eqb_eq in Hs. rewrite Hs.
    replace (2 * (0 + 2 ^ (k - 1) * 1) ?= 2 ^ k) with Eq; [reflexivity|].
    symmetry. apply Z.compare_eq_iff. lia.
  - symmetry in Hs. apply negb_true_iff, Z.eqb_neq in Hs.
    replace (2 * (a mod 2 ^ (k - 1) + 2 ^ (k - 1) * 0) ?= 2 ^ k) with Lt; [reflexivity|].
    symmetry. apply Z.compare_lt_iff. lia.
  - symmetry in Hs. apply negb_false_iff, Z.eqb_eq in Hs. rewrite Hs.
    replace (2 * (0 + 2 ^ (k - 1) * 0) ?= 2 ^ k) with Lt; [reflexivity|].
    symmetry. apply Z.compare_lt_iff.
    assert (0 < 2 ^ (k - 1)) by (apply Z.pow_pos_nonneg; lia). lia.
Qed.

Lemma fexp_normal (x : Z) : - 1021 <= x -> fexp 53 1024 x = x - 53.
Proof. intros Hx. unfold fexp, emin. lia. Qed.

Lemma Zdigits2_log2 (q : Z) : 0 < q -> Zdigits2 q = Z.log2 q + 1.
Proof.
  destruct q as [| p | p]; try lia. intros _. cbn [Zdigits2]. apply digits2_log2.
Qed.

Lemma shr_fexp_exact (q e : Z) :
  2 ^ 52 <= q < 2 ^ 53 -> - 1000 <= e ->
  shr_fexp 53 1024 q e loc_Exact = (Build_shr_record q false false, e).
Proof.
  intros Hq He. unfold shr_fexp.
  rewrite Zdigits2_log2 by lia.
  rewrite (Z.log2_unique q 52 ltac:(lia) Hq).
  rewrite fexp_normal by lia.
  replace (52 + 1 + e - 53 - e) with 0 by lia. reflexivity.
Qed.

Lemma shr_fexp_carry (e : Z) :
  - 1000 <= e ->
  shr_fexp 53 1024 (2 ^ 53) e loc_Exact = (Build_shr_record (2 ^ 52) false false, e + 1).
Proof.
  intros He. unfold shr_fexp.
  change (Zdigits2 (2 ^ 53)) with 54.
  rewrite fexp_normal by lia.
  replace (54 + e - 53 - e) with 1 by lia. reflexivity.
Qed.

Lemma round_aux_exact (s : bool) (q : positive) (e : Z) :
  2 ^ 52 <= Zpos q < 2 ^ 53 -> - 1000 <= e ->
  binary_round_aux 53 1024 s (Zpos q) e loc_Exact =
  if e <=? 1024 - 53 then S754_finite s q e else S754_infinity s.
Proof.
  intros Hq He. unfold binary_round_aux.
  rewrite (shr_fexp_exact (Zpos q) e Hq He).
  cbn [shr_m loc_of_shr_record round_nearest_even].
  rewrite (shr_fexp_exact (Zpos q) e Hq He). reflexivity.
Qed.

Ltac split_tests :=
  repeat match goal with
         | |- context [?a <=? ?b] => destruct (Z.leb_spec a b)
         | |- context [?a <? ?b] => destruct (Z.ltb_spec a b)
         end;
  try reflexivity; try lia; f_equal; lia.

Lemma binary_round_nearest (s : bool) (m : positive) :
  binary_round 53 1024 s m (- 10) =
  match nearest_double (Zpos m) 10 with
  | (Zpos q, e) => if 1024 - 53 <? e then S754_infinity s else S754_finite s q e
  | _ => S754_zero s
  end.
Proof.
  unfold binary_round, nearest_double, bit_length.
  rewrite digits2_log2.
  pose proof (Z.log2_nonneg (Zpos m)) as Hlog.
  pose proof (Z.log2_spec (Zpos m) ltac:(lia)) as [Hlo Hhi].
  set (l := Z.log2 (Zpos m)) in *.
  rewrite fexp_normal by lia.
  unfold shl_align.
  replace (l + 1 + -10 - 53 - -10) with (l + 1 - 53) by lia.
  destruct (l + 1 <=? 53) eqn:Hsmall.
  - apply Z.leb_le in Hsmall.
    assert (Hmz : forall k, 0 <= k -> k = 53 - (l + 1) ->
                  2 ^ 52 <= Zpos m * 2 ^ k < 2 ^ 53).
    { intros k Hk Ek.
      replace 52 with (l + k) by lia. replace 53 with (Z.succ l + k) by lia.
      rewrite !Z.pow_add_r by lia.
      assert (0 < 2 ^ k) by (apply Z.pow_pos_nonneg; lia). nia. }
    destruct (l + 1 - 53) as [| d | d] eqn:Hd; try lia.
    + replace (53 - (l + 1)) with 0 by lia.
      specialize (Hmz 0 ltac:(lia) ltac:(lia)).
      rewrite Z.pow_0_r, Z.mul_1_r in *.
      rewrite round_aux_exact by lia.
      split_tests.
    + replace (53 - (l + 1)) with (Zpos d) by lia.
      specialize (Hmz (Zpos d) ltac:(lia) ltac:(lia)).
      rewrite <- iter_xO in *.
      rewrite round_aux_exact by lia.
      replace (l + 1 + -10 - 53) with (l + 1 - 53 - 10) by lia.
      split_tests.
  - apply Z.leb_gt in Hsmall.
    destruct (l + 1 - 53) as [| sh | sh] eqn:Hsh; try lia.
    unfold binary_round_aux, shr_fexp at 1.
    rewrite Zdigits2_log2 by lia. fold l.
    rewrite fexp_normal by lia.
    replace (l + 1 + -10 - 53 - -10) with (Zpos sh) by lia.
    cbn [shr shr_record_of_loc].
    rewrite iter_pos_iter.
    pose proof (shifted_steps (Zpos m) sh ltac:(lia)) as Hshift.
    rewrite (round_of_shifted (Zpos m) (Zpos sh) _ ltac:(lia) ltac:(lia) Hshift).
    assert (Hpow : 0 < 2 ^ Zpos sh) by (apply Z.pow_pos_nonneg; lia).
    assert (Hdiv : 2 ^ 52 <= Zpos m / 2 ^ Zpos sh < 2 ^ 53).
    { split.
      - apply Z.div_le_lower_bound; [lia|].
        rewrite Z.mul_comm, <- Z.pow_add_r by lia.
        replace (52 + Zpos sh) with l by lia. exact Hlo.
      - apply Z.div_lt_upper_bound; [lia|].
        rewrite <- Z.pow_add_r by lia.
        replace (Zpos sh + 53) with (Z.succ l) by lia. exact Hhi. }
    assert (Hq : 2 ^ 52 <= round_half_even (Zpos m) (2 ^ Zpos sh) <= 2 ^ 53).
    { unfold round_half_even.
      destruct (2 * (Zpos m mod 2 ^ Zpos sh) ?= 2 ^ Zpos sh);
        try destruct (Z.even (Zpos m / 2 ^ Zpos sh)); lia. }
    set (q := round_half_even (Zpos m) (2 ^ Zpos sh)) in *.
    destruct (q =? 2 ^ 53) eqn:Hcarry.
    + apply Z.eqb_eq in Hcarry. rewrite Hcarry.
      rewrite shr_fexp_carry by lia. cbn [shr_m].
      change (2 ^ 52) with (Zpos (4503599627370496)).
      split_tests.
    + apply Z.eqb_neq in Hcarry.
      rewrite shr_fexp_exact by lia. cbn [shr_m].
      destruct q as [| qp | qp] eqn:Eq; try lia.
      split_tests.
Qed.

Lemma round_half_even_lower (a d : Z) : a / d <= round_half_even a d.
Proof.
  unfold round_half_even.
  destruct (2 * (a mod d) ?= d); try destruct (Z.even (a / d)); lia.
Qed.

Lemma nearest_double_mantissa (a k : Z) : 0 < a -> 0 < fst (nearest_double a k).
Proof.
  intros Ha. unfold nearest_double, bit_length.
  pose proof (Z.log2_nonneg a) as Hlog.
  pose proof (Z.log2_spec a Ha) as [Hlo _].
  destruct (Z.log2 a + 1 <=? 53) eqn:Hsmall; cbn [fst].
  - apply Z.leb_le in Hsmall. apply Z.mul_pos_pos; [lia|].
    apply Z.pow_pos_nonneg; lia.
  - apply Z.leb_gt in Hsmall.
    destruct (round_half_even a (2 ^ (Z.log2 a + 1 - 53)) =? 2 ^ 53) eqn:Hq;
      cbn [fst]; [reflexivity|].
    pose proof (round_half_even_lower a (2 ^ (Z.log2 a + 1 - 53))) as Hge.
    assert (1 <= a / 2 ^ (Z.log2 a + 1 - 53)); [| lia].
    apply Z.div_le_lower_bound; [apply Z.pow_pos_nonneg; lia|].
    rewrite Z.mul_1_r.
    apply Z.le_trans with (2 ^ Z.log2 a); [| exact Hlo].
    apply Z.pow_le_mono_r; lia.
Qed.

(** For every size, [kib] and [kib_overflows] give what the
    specification gives for the rounding of [n * 2^-10] to binary64. *)
Lemma kib_is_binary64 (n : Z) :
  binary_normalize 53 1024 n (- 10) false =
  if kib_overflows n then S754_infinity (n <? 0) else kib n.
Proof.
  unfold binary_normalize, kib_overflows, kib.
  destruct n as [| m | m]; [reflexivity | |];
    rewrite binary_round_nearest; cbn [Z.abs Z.ltb Z.compare];
    pose proof (nearest_double_mantissa (Zpos m) 10 ltac:(lia)) as Hpos;
    destruct (nearest_double (Zpos m) 10) as [[| q | q] e];
    cbn [fst snd] in *; try lia; reflexivity.
Qed.

(** The division overflows exactly from the first size whose quotient
    rounds to 2^1024, where the specification gives an infinity. *)
Example kib_overflow_threshold :
  map kib_overflows [2 ^ 1034 - 2 ^ 980 - 1; 2 ^ 1034 - 2 ^ 980; 2 ^ 1100] =
    [false; true; true] /\
  binary_normalize 53 1024 (2 ^ 1034 - 2 ^ 980) (- 10) false = S754_infinity false.
Proof. split; vm_compute; reflexivity. Qed.

(** What [%.1f] prints: ties go to the even digit, the sign of a negative
    number stays, and a size of 2^60 + 1 prints as 2^50. *)
Example format_1f_samples :
  map (fun n => format_1f (kib n)) [0; 51; 52; 256; 768; 9216; - 1; - 256; 2 ^ 60 + 1] =
  ["0.0"; "0.0"; "0.1"; "0.2"; "0.8"; "9.0"; "-0.0"; "-0.2"; "1125899906842624.0"].
Proof. vm_compute. reflexivity. Qed.

(** Below 2^53 the division by 1024 is exact, and what [%.1f] prints is
    the size over 1024 to one decimal. *)
Lemma format_1f_kib (n : Z) :
  Z.abs n < 2 ^ 53 -> format_1f (kib n) = one_decimal n 1024.
Proof.
  intros Hn. unfold kib, one_decimal, nearest_double.
  pose proof (bit_length_bound (Z.abs n) 53 (conj (Z.abs_nonneg n) Hn) ltac:(lia))
    as Hbits.
  assert (Hlow : 1 <= bit_length (Z.abs n)).
  { unfold bit_length. pose proof (Z.log2_nonneg (Z.abs n)). lia. }
  destruct (bit_length (Z.abs n) <=? 53) eqn:Hsmall;
    [| apply Z.leb_gt in Hsmall; lia].
  set (k := 53 - bit_length (Z.abs n)).
  assert (Hk : 0 <= k) by (unfold k; lia).
  assert (Hpow : 0 < 2 ^ k) by (apply Z.pow_pos_nonneg; lia).
  destruct (Z.eq_dec n 0) as [-> | Hnz]; [reflexivity|].
  assert (Hpos : 0 < Z.abs n * 2 ^ k) by (apply Z.mul_pos_pos; lia).
  destruct (Z.abs n * 2 ^ k) as [| m | m] eqn:Hm; try lia.
  cbn [format_1f].
  destruct (0 <=? bit_length (Z.abs n) - 53 - 10) eqn:He;
    [apply Z.leb_le in He; lia|].
  f_equal. rewrite <- Hm.
  replace (- (bit_length (Z.abs n) - 53 - 10)) with (10 + k) by (unfold k; lia).
  rewrite Z.pow_add_r by lia.
  replace (10 * (Z.abs n * 2 ^ k)) with (10 * Z.abs n * 2 ^ k) by ring.
  change (2 ^ 10) with 1024.
  apply round_half_even_scale; lia.
Qed.

Lemma append_empty (t : string) : t ++ "" = t.
Proof. induction t as [| c t IH]; [reflexivity | cbn; now rewrite IH]. Qed.

(** The message of a detailed report, as the [logging] module renders
    it. *)
Lemma traceback_message (stat : Statistic) :
  getMessage (traceback_event stat) =
  Some ("memory_blocks=" ++ str_int (count stat)
        ++ " size_KiB=" ++ format_1f (kib (size stat))
        ++ nl ++ String.concat nl (format (traceback stat))).
Proof.
  unfold traceback_event, getMessage, traceback_fmt.
  cbn [append percent_format percent_s percent_1f nl].
  now rewrite append_empty.
Qed.

(** C9, detailed traceback reports.  A checkpoint logs one detailed
    report for each of the first [trace] entries of
    [current.statistics("traceback")], in that order and for no other
    entry; as the facility lists the sites by descending size, no site
    left out is larger than a reported one.  Each report is logged with
    the format ["memory_blocks=%s size_KiB=%.1f\n%s"] and three arguments:
    the site's block count, the float [size / 1024], and the lines of the
    formatted call stack joined by newlines.  The division does not
    overflow, and the float is the binary64 number that the IEEE 754
    specification gives for the size times 2^-10.  Rendered by the
    [logging] module, the text of the report shows the count, the float
    to one decimal and the call stack; for a size below 2^53 the division
    is exact and that decimal is the size over 1024 rounded to the nearest
    tenth. *)
Theorem detailed_traceback_reports (s : state) (b p : Snapshot) :
  0 <= trace (self s) ->
  disabled (self s) = false ->
  tracing (env s) = true ->
  _start (self s) = Some b ->
  _prev (self s) = Some p ->
  let t := self s in
  let cur := snapshot_of (traceback_limit (env s)) (gc_pass t (memory (env s))) in
  let sites := statistics cur Traceback in
  StronglySorted (fun x y => size y <= size x) sites ->
  let reported := firstn (Z.to_nat (trace t)) sites in
  let new := emitted s (snd (update s)) in
  fst (update s) = Return RNone /\
  logged ("memory_blocks=%s size_KiB=%.1f" ++ nl ++ "%s") new =
    map (fun stat => [PyInt (count stat);
                      PyFloat (kib (size stat));
                      PyStr (String.concat nl (format (traceback stat)))])
        reported /\
  List.length reported = Nat.min (Z.to_nat (trace t)) (List.length sites) /\
  (forall r u, In r reported -> In u (skipn (Z.to_nat (trace t)) sites) ->
               size u <= size r) /\
  (forall stat, In stat reported ->
     kib_overflows (size stat) = false /\
     kib (size stat) = binary_normalize 53 1024 (size stat) (- 10) false /\
     getMessage (EvLog ("memory_blocks=%s size_KiB=%.1f" ++ nl ++ "%s")
                       [PyInt (count stat);
                        PyFloat (kib (size stat));
                        PyStr (String.concat nl (format (traceback stat)))]) =
     Some ("memory_blocks=" ++ str_int (count stat)
           ++ " size_KiB=" ++ format_1f (kib (size stat))
           ++ nl ++ String.concat nl (format (traceback stat)))) /\
  (forall stat, In stat reported -> Z.abs (size stat) < 2 ^ 53 ->
     format_1f (kib (size stat)) = one_decimal (size stat) 1024).
Proof.
  intros Htrace Hd Ht Hb Hp t cur sites Hsorted reported new.
  destruct s as [t0 w]. cbn [self env] in *. subst t new.
  rewrite (update_checkpoint t0 w b p Hd Ht Hb Hp). cbn [fst snd].
  erewrite emitted_app by (cbn [env events]; reflexivity).
  fold cur. fold sites.
  assert (Hslice : slice_to sites (trace t0) = reported).
  { unfold slice_to. destruct (trace t0 <? 0) eqn:E; [| reflexivity].
    apply Z.ltb_lt in E. lia. }
  split; [reflexivity|]. split.
  - change ("memory_blocks=%s size_KiB=%.1f" ++ nl ++ "%s")%string with traceback_fmt.
    rewrite logged_app.
    assert (Hgc : logged traceback_fmt (collect_events t0) = []).
    { unfold collect_events. now destruct (gccollect t0). }
    rewrite Hgc. unfold report_events. rewrite logged_app.
    rewrite logged_traceback_events. fold cur. fold sites. rewrite Hslice.
    reflexivity.
  - split; [apply length_firstn|]. split; [| split].
    + intros r u Hr Hu.
      apply (sorted_prefix_dominates (fun x y => size y <= size x)
               reported (skipn (Z.to_nat (trace t0)) sites)); trivial.
      unfold reported. now rewrite firstn_skipn.
    + intros stat Hin.
      assert (Hfits : kib_overflows (size stat) = false).
      { apply kib_in_range, (statistics_size cur Traceback).
        change (In stat sites).
        rewrite <- (firstn_skipn (Z.to_nat (trace t0)) sites).
        apply in_or_app. left. exact Hin. }
      split; [exact Hfits|]. split.
      * now rewrite kib_is_binary64, Hfits.
      * exact (traceback_message stat).
    + intros stat _ Hsmall. now apply format_1f_kib.
Qed.

(** ** The context manager *)

Lemma stop_returns (s : state) : fst (stop s) = Return RNone.
Proof.
  destruct s as [t w]. destruct (disabled t) eqn:Hd.
  - now rewrite (stop_disabled (mkState t w) Hd).
  - now rewrite (stop_enabled t w Hd).
Qed.

Lemma exit_is_stop (exc : option exception) (s : state) :
  __exit__ exc s = (Return RNone, snd (stop s)).
Proof.
  unfold __exit__, bind, ret. pose proof (stop_returns s) as Hr.
  destruct (stop s) as [[r | e] s']; cbn [fst snd] in *;
    [reflexivity | discriminate Hr].
Qed.

(** A [start()] that raises keeps the body and [stop()] from running. *)
Lemma with_enter_raises {A : Type} (body : retval -> M A) (s : state)
    (e : exception) :
  fst (start s) = Raise e -> with_ body s = (Raise e, snd (start s)).
Proof.
  intros He. unfold with_, __enter__, bind, ret.
  destruct (start s) as [[r | e'] s1]; cbn [fst snd] in *;
    [discriminate He | now injection He as ->].
Qed.

(** C5 as amended, scoped cleanup.  When [start()] returns on entry, the
    [with] statement runs [start()], the body with the tracer bound, and
    then [stop()] on whatever state the body left, whether the body
    returned or raised; an exception of the body is re-raised after
    [stop()].  If the tracer is enabled at that point, tracing is off when
    the statement is left, [tracemalloc.stop()] being the last call made
    to the facility.  If it is disabled, [stop()] does nothing and the
    statement leaves the process as the body left it. *)
Theorem scoped_cleanup {A : Type} (body : retval -> M A) (s : state) (r : retval) :
  fst (start s) = Return r ->
  let entered := snd (start s) in
  let left := snd (body RSelf entered) in
  with_ body s =
    (match fst (body RSelf entered) with
     | Return a => Return (Some a)
     | Raise e => Raise e
     end,
     snd (stop left)) /\
  (disabled (self left) = false ->
   tracing (env (snd (with_ body s))) = false /\
   emitted left (snd (with_ body s)) = [EvStop; EvLog stop_msg []]) /\
  (disabled (self left) = true -> snd (with_ body s) = left).
Proof.
  intros Hr entered left.
  assert (E : with_ body s =
              (match fst (body RSelf entered) with
               | Return a => Return (Some a)
               | Raise e => Raise e
               end,
               snd (stop left))).
  { subst left entered. unfold with_, __enter__, bind, ret.
    destruct (start s) as [[r' | e] s1]; cbn [fst snd] in *; [| discriminate Hr].
    destruct (body RSelf s1) as [[a | e] s2]; cbn [fst snd];
      rewrite exit_is_stop; reflexivity. }
  rewrite E. cbn [snd]. split; [reflexivity|].
  destruct left as [t w]. cbn [self]. split; intros Hd.
  - rewrite (stop_enabled t w Hd). cbn [snd env tracing].
    split; [reflexivity | now apply emitted_app].
  - now rewrite (stop_disabled (mkState t w) Hd).
Qed.

(** ** Beyond the session contract: outcomes, failures and restarts *)

(** X1, when [start()] returns.  [start()] returns exactly in two cases:
    the tracer is disabled (and the tracer itself comes back), or the
    tracer is enabled, nobody is tracing and the facility accepts the
    frame count (and [None] comes back).  In every other case it raises. *)
Theorem start_returns_iff (s : state) (r : retval) :
  fst (start s) = Return r <->
  (disabled (self s) = true /\ r = RSelf) \/
  (disabled (self s) = false /\ r = RNone /\
   tracing (env s) = false /\ valid_nframe (nframe (self s)) = true).
Proof.
  split; [apply start_returned|].
  destruct s as [t w]. cbn [self env].
  intros [(Hd & ->) | (Hd & -> & Ht & Hv)].
  - now rewrite (start_disabled (mkState t w) Hd).
  - now rewrite (start_engages t w Hd Ht Hv).
Qed.

(** X2, a failed [start()] opens no session.  When [start()] raises, the
    tracer object is exactly as before, the facility is neither switched
    on nor reconfigured, and no snapshot was asked for.  Either tracing
    was already on, the error is the tracer's own and the only call made
    was [is_tracing()]; or [tracemalloc.start] refused the frame count,
    the error is the one it refused it with, whatever its class, and the
    start line had already been logged. *)
Theorem failed_start_opens_no_session (s : state) (e : exception) :
  fst (start s) = Raise e ->
  self (snd (start s)) = self s /\
  tracing (env (snd (start s))) = tracing (env s) /\
  traceback_limit (env (snd (start s))) = traceback_limit (env s) /\
  memory (env (snd (start s))) = memory (env s) /\
  ~ In EvTakeSnapshot (emitted s (snd (start s))) /\
  ((tracing (env s) = true /\
    e = RuntimeError already_tracing_msg /\
    emitted s (snd (start s)) = [EvIsTracing]) \/
   (tracing (env s) = false /\
    start_error (nframe (self s)) = Some e /\
    emitted s (snd (start s)) =
      [EvIsTracing; EvLog start_msg []; EvStart (nframe (self s))])).
Proof.
  destruct s as [t w]. cbn [self env].
  start_paths t w; cbn [fst snd self env tracing traceback_limit memory emits];
    intros E; try discriminate E; injection E as <-.
  - rewrite (emitted_app (mkState t w) _ [EvIsTracing]) by reflexivity.
    repeat split; auto.
    intros [Hin | []]; discriminate Hin.
  - rewrite (emitted_app (mkState t w) _
               [EvIsTracing; EvLog start_msg []; EvStart (nframe t)])
      by reflexivity.
    repeat split; auto.
    intros [Hin | [Hin | [Hin | []]]]; discriminate Hin.
Qed.

(** X3, when [update()] returns.  [update()] returns (always [None])
    exactly when the tracer is disabled, or the facility is tracing and
    both snapshot attributes are set.  An enabled tracer that was never
    started, or was stopped, makes it raise. *)
Theorem update_returns_iff (s : state) (r : retval) :
  fst (update s) = Return r <->
  r = RNone /\
  (disabled (self s) = true \/
   (tracing (env s) = true /\
    _start (self s) <> None /\ _prev (self s) <> None)).
Proof.
  destruct s as [t w]. cbn [self env].
  update_paths t w; cbn [fst]; split;
    try (intros Hres; discriminate Hres);
    try (intros Hres; injection Hres as <-);
    try (intros (-> & H1)); intuition (try discriminate; try congruence).
Qed.

(** X4, a failed [update()] reports nothing.  When [update()] raises, no
    line was logged and the tracer object is exactly as before, so the
    next incremental report is not affected; but the garbage collector
    has already run if [gccollect] is set, and the snapshot had been asked
    for.  The error is the facility's [RuntimeError] when it is not
    tracing, and an [AttributeError] on the missing snapshot when it is. *)
Theorem failed_update_reports_nothing (s : state) (e : exception) :
  fst (update s) = Raise e ->
  self (snd (update s)) = self s /\
  log_formats (emitted s (snd (update s))) = [] /\
  emitted s (snd (update s)) = (collect_events (self s) ++ [EvTakeSnapshot])%list /\
  memory (env (snd (update s))) = gc_pass (self s) (memory (env s)) /\
  (tracing (env s) = false -> exists msg, e = RuntimeError msg) /\
  (tracing (env s) = true -> exists msg, e = AttributeError msg).
Proof.
  destruct s as [t w]. cbn [self env].
  update_paths t w; cbn [fst snd self env memory];
    intros Hres; try discriminate Hres; injection Hres as <-;
    (rewrite (emitted_app (mkState t w) _ (collect_events t ++ [EvTakeSnapshot]))
      by reflexivity);
    (assert (Hquiet : log_formats (collect_events t ++ [EvTakeSnapshot]) = [])
      by (unfold collect_events; now destruct (gccollect t)));
    repeat split; eauto; intros Habs; discriminate Habs.
Qed.

(** X5, [update()] before [start()].  On a freshly built tracer that is
    not disabled, whatever the other arguments and whatever the state of
    the process, [update()] raises, and the tracer still holds no
    snapshot afterwards. *)
Theorem update_before_start_raises (top_ trace_ nframe_ : option Z)
    (gccollect_ disabled_ : option bool) (w : world) :
  disabled_ <> Some true ->
  let t := __init__ top_ trace_ nframe_ gccollect_ disabled_ in
  (exists e, fst (update (mkState t w)) = Raise e) /\
  _start (self (snd (update (mkState t w)))) = None /\
  _prev (self (snd (update (mkState t w)))) = None.
Proof.
  intros Hen t.
  assert (Hd : disabled t = false).
  { subst t. unfold __init__. cbn. destruct disabled_ as [[|] |]; congruence. }
  destruct (tracing w) eqn:Ht.
  - destruct (update_without_snapshot t w Hd Ht (or_introl eq_refl)) as [msg E].
    rewrite E. cbn. eauto.
  - destruct (update_not_tracing t w Hd Ht) as [msg E].
    rewrite E. cbn. eauto.
Qed.

(** X6, a session can be reopened.  After [stop()], a [start()] on the
    same enabled tracer succeeds whenever the facility accepts its frame
    count, whatever happened before the [stop()].  The [stop()] of a
    running session has made the facility clear its traces, so the new
    baseline and the new previous snapshot are both the snapshot of what
    was left on record after that, taken under the tracer's frame count:
    nothing of what the stopped session had traced carries over. *)
Theorem restart_after_stop (s : state) :
  disabled (self s) = false ->
  valid_nframe (nframe (self s)) = true ->
  let again := start (snd (stop s)) in
  let on_record :=
    if tracing (env s) then discard (memory (env s)) else memory (env s) in
  let fresh := snapshot_of (nframe (self s)) on_record in
  fst again = Return RNone /\
  _start (self (snd again)) = Some fresh /\
  _prev (self (snd again)) = Some fresh /\
  tracing (env (snd again)) = true /\
  traceback_limit (env (snd again)) = nframe (self s) /\
  memory (env (snd (stop s))) = on_record /\
  memory (env (snd again)) = on_record.
Proof.
  intros Hd Hv again on_record fresh. subst again fresh on_record.
  destruct s as [t w]. cbn [self env] in *.
  rewrite (stop_enabled t w Hd). cbn [snd].
  match goal with
  | |- context [start (mkState ?t1 ?w1)] =>
      rewrite (start_engages t1 w1 Hd eq_refl Hv)
  end.
  now repeat split.
Qed.

(** X7, stopping twice.  A second [stop()] right after a first one leaves
    the tracer object and the facility as the first one left them; on an
    enabled tracer it calls [tracemalloc.stop()] and logs the stop line
    once more, exactly as the first did. *)
Theorem stop_twice (s : state) :
  self (snd (stop (snd (stop s)))) = self (snd (stop s)) /\
  tracing (env (snd (stop (snd (stop s))))) = tracing (env (snd (stop s))) /\
  traceback_limit (env (snd (stop (snd (stop s))))) =
    traceback_limit (env (snd (stop s))) /\
  memory (env (snd (stop (snd (stop s))))) = memory (env (snd (stop s))) /\
  emitted (snd (stop s)) (snd (stop (snd (stop s)))) = emitted s (snd (stop s)).
Proof.
  destruct s as [t w]. destruct (disabled t) eqn:Hd.
  - rewrite !(stop_disabled (mkState t w) Hd). cbn [snd].
    rewrite !(stop_disabled (mkState t w) Hd). now repeat split.
  - rewrite (stop_enabled t w Hd). cbn [snd].
    match goal with
    | |- context [stop (mkState ?t1 ?w1)] => rewrite (stop_enabled t1 w1 Hd)
    end.
    cbn [snd self env tracing traceback_limit memory].
    repeat split.
    rewrite (emitted_app (mkState t w) _ [EvStop; EvLog stop_msg []]) by reflexivity.
    now apply emitted_app.
Qed.

(** X8, [update()] after [stop()].  Once an enabled tracer has been
    stopped, [update()] raises the facility's [RuntimeError] for a
    snapshot asked while not tracing; nothing is logged and the tracer
    still holds no snapshot. *)
Theorem update_after_stop_raises (s : state) :
  disabled (self s) = false ->
  let after := update (snd (stop s)) in
  (exists msg, fst after = Raise (RuntimeError msg)) /\
  log_formats (emitted (snd (stop s)) (snd after)) = [] /\
  _start (self (snd after)) = None /\
  _prev (self (snd after)) = None.
Proof.
  intros Hd after. subst after.
  destruct s as [t w]. cbn [self] in *.
  rewrite (stop_enabled t w Hd). cbn [snd].
  match goal with
  | |- context [update (mkState ?t1 ?w1)] =>
      destruct (update_not_tracing t1 w1 Hd eq_refl) as [msg E]
  end.
  rewrite E. cbn [fst snd self _start _prev with_snapshots].
  split; [eauto|]. split; [| now split].
  erewrite emitted_app by (cbn [env events]; reflexivity).
  unfold collect_events. cbn [gccollect with_snapshots].
  now destruct (gccollect t).
Qed.

(** X9, a refused entry runs neither the block nor the cleanup.  When an
    enabled tracer is used in a [with] statement while the facility is
    already tracing, the statement raises the "already tracing" error
    without running the guarded block and without calling [stop()]: the
    only call made is [is_tracing()], and the session that was running
    keeps running. *)
Theorem refused_entry_skips_block {A : Type} (body : retval -> M A) (s : state) :
  disabled (self s) = false ->
  tracing (env s) = true ->
  with_ body s =
    (Raise (RuntimeError already_tracing_msg),
     mkState (self s) (emits [EvIsTracing] (env s))) /\
  tracing (env (snd (with_ body s))) = true /\
  emitted s (snd (with_ body s)) = [EvIsTracing].
Proof.
  destruct s as [t w]. cbn [self env]. intros Hd Ht.
  assert (E : with_ body (mkState t w) =
              (Raise (RuntimeError already_tracing_msg),
               mkState t (emits [EvIsTracing] w))).
  { unfold with_, __enter__, bind, ret.
    now rewrite (start_already_tracing t w Hd Ht). }
  rewrite E. cbn [snd env emits tracing].
  split; [reflexivity|]. split; [exact Ht|]. now apply emitted_app.
Qed.

Lemma log_formats_app (l1 l2 : list event) :
  log_formats (l1 ++ l2) = (log_formats l1 ++ log_formats l2)%list.
Proof. unfold log_formats. apply flat_map_app. Qed.

Lemma log_formats_traceback_events (l : list Statistic) :
  log_formats (map traceback_event l) = repeat traceback_fmt (List.length l).
Proof.
  induction l as [| x l IH]; [reflexivity|].
  cbn [map log_formats flat_map traceback_event List.length repeat app].
  f_equal. exact IH.
Qed.

Lemma snapshots_taken_app (l1 l2 : list event) :
  snapshots_taken (l1 ++ l2) = (snapshots_taken l1 + snapshots_taken l2)%nat.
Proof. unfold snapshots_taken. now rewrite filter_app, length_app. Qed.

Lemma snapshots_taken_traceback_events (l : list Statistic) :
  snapshots_taken (map traceback_event l) = O.
Proof. induction l as [| x l IH]; [reflexivity | exact IH]. Qed.

(** X10, the order of the log lines.  A checkpoint that succeeds asks for
    one snapshot and then logs, in this order: the cumulative report, the
    incremental report, the current-state report, and one detailed report
    per reported site; nothing else is logged. *)
Theorem reports_come_in_order (s : state) (b p : Snapshot) :
  disabled (self s) = false ->
  tracing (env s) = true ->
  _start (self s) = Some b ->
  _prev (self s) = Some p ->
  let t := self s in
  let cur := snapshot_of (traceback_limit (env s)) (gc_pass t (memory (env s))) in
  let sites := slice_to (statistics cur Traceback) (trace t) in
  log_formats (emitted s (snd (update s))) =
    ([cumulative_fmt; incremental_fmt; current_fmt]
     ++ repeat traceback_fmt (List.length sites))%list /\
  snapshots_taken (emitted s (snd (update s))) = 1%nat.
Proof.
  intros Hd Ht Hb Hp t cur sites.
  destruct s as [t0 w]. cbn [self env] in *. subst t.
  rewrite (update_checkpoint t0 w b p Hd Ht Hb Hp). cbn [snd].
  erewrite emitted_app by (cbn [env events]; reflexivity).
  fold cur. unfold report_events. fold sites.
  assert (Hgc : log_formats (collect_events t0) = [] /\
                snapshots_taken (collect_events t0) = O).
  { unfold collect_events. now destruct (gccollect t0). }
  destruct Hgc as [Hgc1 Hgc2]. split.
  - rewrite !log_formats_app, Hgc1, log_formats_traceback_events. reflexivity.
  - rewrite !snapshots_taken_app, Hgc2, snapshots_taken_traceback_events.
    reflexivity.
Qed.

(** X11, the configuration is never modified.  No sequence of
    [start()], [stop()] and [update()] calls, interleaved with any outside
    code, changes [top], [trace], [nframe], [gccollect] or [disabled]. *)
Theorem configuration_is_never_modified (cs : list call) (s : state) :
  top (self (run cs s)) = top (self s) /\
  trace (self (run cs s)) = trace (self s) /\
  nframe (self (run cs s)) = nframe (self s) /\
  gccollect (self (run cs s)) = gccollect (self s) /\
  disabled (self (run cs s)) = disabled (self s).
Proof.
  pose proof (run_config cs s) as E. unfold config in E.
  injection E as E1 E2 E3 E4 E5. now repeat split.
Qed.

(** ** The session invariant *)

Lemma perform_in_step (c : call) (s : state) :
  quiet c -> in_step s -> in_step (perform c s).
Proof.
  destruct s as [t w]. unfold in_step. cbn [self env].
  destruct c as [| | | f]; cbn [perform quiet]; intros Hq [Hboth Hon].
  - start_paths t w;
      cbn [snd self env _start _prev tracing with_snapshots emits];
      intuition (try discriminate; try congruence).
  - destruct (disabled t) eqn:Hd.
    + rewrite (stop_disabled (mkState t w) Hd). cbn [snd self env]. tauto.
    + rewrite (stop_enabled t w Hd).
      cbn [snd self env _start _prev tracing with_snapshots].
      intuition congruence.
  - update_paths t w;
      cbn [snd self env _start _prev tracing with_snapshots];
      rewrite ?Hb, ?Hp in *;
      intuition (try discriminate; try congruence).
  - cbn [self env]. rewrite Hq. tauto.
Qed.

Lemma run_in_step (cs : list call) (s : state) :
  Forall quiet cs -> in_step s -> in_step (run cs s).
Proof.
  revert s. induction cs as [| c cs IH]; intros s Hq Hs; [exact Hs|].
  apply Forall_cons_iff in Hq. destruct Hq as [Hc Hcs].
  cbn [run fold_left]. fold (run cs (perform c s)).
  apply IH; [exact Hcs | now apply perform_in_step].
Qed.

(** X12, inside a session [update()] always works.  Start from a tracer
    whose snapshot attributes are both unset (a new one, say) and let any
    sequence of [start()], [stop()] and [update()] calls run, together
    with any outside code that does not switch the facility on or off.
    Then the two snapshot attributes are still set together or not at all,
    a tracer holding a baseline has the facility tracing, and on an
    enabled tracer [update()] succeeds exactly when the tracer holds a
    baseline, that is, between a successful [start()] and the next
    [stop()]. *)
Theorem update_works_inside_a_session (cs : list call) (s : state) :
  Forall quiet cs ->
  _start (self s) = None ->
  _prev (self s) = None ->
  let now_ := run cs s in
  (_start (self now_) = None <-> _prev (self now_) = None) /\
  (_start (self now_) <> None -> tracing (env now_) = true) /\
  (disabled (self s) = false ->
   (fst (update now_) = Return RNone <-> _start (self now_) <> None)).
Proof.
  intros Hq Hb Hp now_.
  assert (Hs : in_step s).
  { unfold in_step. rewrite Hb, Hp. split; [tauto | congruence]. }
  pose proof (run_in_step cs s Hq Hs) as [Hboth Hon].
  fold now_ in Hboth, Hon.
  split; [exact Hboth|]. split; [exact Hon|].
  intros Hd0.
  assert (Hd : disabled (self now_) = false).
  { rewrite <- Hd0. apply config_disabled, run_config. }
  destruct now_ as [t w]. cbn [self env] in *.
  update_paths t w; cbn [fst]; try discriminate Hd;
    intuition (try discriminate; try congruence).
Qed.

(** ** The text of a report *)

Lemma enumerate_nth_error {A : Type} (l : list A) (k i : nat) (x : A) :
  nth_error l i = Some x ->
  nth_error (enumerate l k) i = Some ((k + i)%nat, x).
Proof.
  unfold enumerate. revert k i.
  induction l as [| a l IH]; intros k i Hx.
  - destruct i; discriminate Hx.
  - destruct i as [| i]; cbn in Hx |- *.
    + injection Hx as ->. now rewrite Nat.add_0_r.
    + rewrite (IH (S k) i Hx). now rewrite Nat.add_succ_r.
Qed.

Lemma enumerate_firstn {A : Type} (l : list A) (k n : nat) :
  enumerate (firstn n l) k = firstn n (enumerate l k).
Proof.
  unfold enumerate. revert k n.
  induction l as [| a l IH]; intros k n.
  - now destruct n.
  - destruct n as [| n]; [reflexivity|].
    cbn. f_equal. apply IH.
Qed.

Lemma stat_lines_length {A : Type} `{Str A} (stats : list A) :
  List.length (stat_lines stats) = List.length stats.
Proof.
  unfold stat_lines, enumerate.
  rewrite length_map, length_combine, length_seq. apply Nat.min_id.
Qed.

(** X13, report lines carry 1-based ranks.  The text [_format_stats]
    builds is its lines joined by newlines; there is one line per row,
    and line [i] (counting from 0) is the rank [i + 1], right-aligned in
    two columns, then a colon, a space and [str] of row [i].  No rows
    give the empty text. *)
Theorem report_lines_are_ranked {A : Type} `{Str A} (stats : list A) :
  _format_stats stats = String.concat nl (stat_lines stats) /\
  List.length (stat_lines stats) = List.length stats /\
  (forall i x, nth_error stats i = Some x ->
               nth_error (stat_lines stats) i =
               Some (format_rank (S i) ++ ": " ++ str x)) /\
  (stats = [] -> _format_stats stats = "").
Proof.
  split; [reflexivity|]. split; [apply stat_lines_length|]. split.
  - intros i x Hx. unfold stat_lines.
    rewrite nth_error_map, (enumerate_nth_error stats 1 i x Hx). reflexivity.
  - now intros ->.
Qed.

(** X14, cutting rows is cutting lines.  Formatting the first rows of a
    list, as every report does with [stats[:top]], gives the first lines
    of the formatting of the whole list: a row keeps the rank it has in
    the facility's full answer. *)
Theorem truncation_keeps_ranks {A : Type} `{Str A} (stats : list A) (stop : Z) :
  stat_lines (slice_to stats stop) = slice_to (stat_lines stats) stop.
Proof.
  unfold slice_to. rewrite stat_lines_length.
  destruct (stop <? 0); unfold stat_lines;
    now rewrite enumerate_firstn, firstn_map.
Qed.

Lemma newlines_app (s1 s2 : string) :
  newlines (s1 ++ s2) = (newlines s1 + newlines s2)%nat.
Proof.
  induction s1 as [| c s1 IH]; [reflexivity|].
  cbn [append newlines]. rewrite IH. lia.
Qed.

Lemma newlines_decimal (n : nat) : newlines (decimal n) = O.
Proof.
  unfold decimal. generalize (Nat.to_uint n). intros d.
  induction d; cbn; auto.
Qed.

Lemma newlines_format_rank (i : nat) : newlines (format_rank i) = O.
Proof.
  unfold format_rank. rewrite newlines_app, newlines_decimal.
  generalize (2 - String.length (decimal i))%nat. intros n.
  induction n as [| n IH]; [reflexivity | exact IH].
Qed.

Lemma newlines_concat (ls : list string) :
  Forall (fun l => newlines l = O) ls ->
  newlines (String.concat nl ls) = Nat.pred (List.length ls).
Proof.
  induction ls as [| l ls IH]; intros Hall; [reflexivity|].
  apply Forall_cons_iff in Hall. destruct Hall as [Hl Hls].
  destruct ls as [| l' ls'].
  - cbn. exact Hl.
  - change (String.concat nl (l :: l' :: ls'))
      with (l ++ nl ++ String.concat nl (l' :: ls')).
    rewrite !newlines_app, Hl, (IH Hls). reflexivity.
Qed.

(** X15, one line per row.  When no row prints with a newline inside,
    the text of a report holds exactly one newline less than it has rows,
    so the rows of a logged report can be counted as its lines. *)
Theorem report_has_one_line_per_row {A : Type} `{Str A} (stats : list A) :
  (forall x, In x stats -> newlines (str x) = O) ->
  newlines (_format_stats stats) = Nat.pred (List.length stats).
Proof.
  intros Hrows.
  change (_format_stats stats) with (String.concat nl (stat_lines stats)).
  rewrite newlines_concat, stat_lines_length; [reflexivity|].
  unfold stat_lines. apply Forall_forall. intros l Hl.
  apply in_map_iff in Hl. destruct Hl as ([i x] & <- & Hin).
  rewrite !newlines_app, newlines_format_rank.
  unfold enumerate in Hin. apply in_combine_r in Hin.
  now rewrite (Hrows x Hin).
Qed.

(** X16, the baseline is taken without a collection pass.  A [start()]
    that succeeds makes four calls, in this order: [is_tracing()], the
    start log line, [tracemalloc.start(nframe)], [take_snapshot()].  It
    never calls [gc.collect()], whatever [gccollect] says, so the baseline
    is the snapshot of the allocations as they are, uncollected ones
    included. *)
Theorem baseline_is_taken_without_collection (s : state) :
  fst (start s) = Return RNone ->
  emitted s (snd (start s)) =
    [EvIsTracing; EvLog start_msg []; EvStart (nframe (self s)); EvTakeSnapshot] /\
  ~ In EvCollect (emitted s (snd (start s))) /\
  memory (env (snd (start s))) = memory (env s) /\
  _start (self (snd (start s))) =
    Some (snapshot_of (nframe (self s)) (memory (env s))).
Proof.
  intros Hok.
  destruct (start_returned _ _ Hok) as [[_ Habs] | (Hd & _ & Ht & Hv)];
    [discriminate Habs|].
  destruct s as [t w]. cbn [self env] in *.
  rewrite (start_engages t w Hd Ht Hv). cbn [snd self env memory _start with_snapshots].
  erewrite emitted_app by (cbn [env events]; reflexivity).
  repeat split.
  intros [Hin | [Hin | [Hin | [Hin | []]]]]; discriminate Hin.
Qed.

End TracerFacts.

(** * The theorems at work on the fake facility *)

Import Fake.

Lemma baseline_stability_witness :
  fst (start (mkState tracer idle)) = Return RNone /\
  logged cumulative_fmt
    (emitted (user_code heap2 (updates [heap1] (snd (start (mkState tracer idle)))))
       (snd (update (user_code heap2
                       (updates [heap1] (snd (start (mkState tracer idle)))))))) =
  [[PyStr (" 1: app.py: size_diff=+9216" ++ nl ++ " 2: lib.py: size_diff=+5120")]].
Proof.
  split; [reflexivity|].
  destruct (baseline_stability (mkState tracer idle) [heap1] heap2 eq_refl)
    as (_ & _ & Hreport & _).
  exact Hreport.
Defined.

Lemma incremental_chaining_witness :
  fst (start (mkState tracer idle)) = Return RNone /\
  logged incremental_fmt
    (emitted (user_code heap2 (updates [heap1] (snd (start (mkState tracer idle)))))
       (snd (update (user_code heap2
                       (updates [heap1] (snd (start (mkState tracer idle)))))))) =
  [[PyStr (" 1: app.py:7: size_diff=+0" ++ nl ++ " 2: lib.py:5: size_diff=+4864")]].
Proof.
  split; [reflexivity|].
  destruct (incremental_chaining (mkState tracer idle) [heap1] heap2 eq_refl)
    as (_ & _ & Hreport & _).
  exact Hreport.
Defined.

Lemma exclusive_session_witness :
  disabled (self (mkState tracer busy)) = false /\
  tracing (env (mkState tracer busy)) = true /\
  start (mkState tracer busy) =
  (Raise (RuntimeError "Cannot start to trace when already tracing"),
   mkState tracer (mkWorld true 1 heap0 [EvIsTracing])).
Proof.
  split; [reflexivity|]. split; [reflexivity|].
  destruct (exclusive_session (mkState tracer busy) eq_refl eq_refl) as (Hraise & _).
  exact Hraise.
Defined.

Lemma lenient_stop_witness :
  disabled (self (mkState tracer idle)) = false /\
  fst (stop (run [CallStop; CallUpdate; CallStop] (mkState tracer idle))) =
  Return RNone.
Proof.
  split; [reflexivity|].
  destruct (lenient_stop [CallStop; CallUpdate; CallStop] (mkState tracer idle) eq_refl)
    as (Hret & _).
  exact Hret.
Defined.

(** C5 as stated fails on a disabled tracer: the block below is entered
    and left through an exception while another component has tracing
    switched on, [stop()] is a no-op, and tracing is still on at the
    end. *)
Lemma scoped_cleanup_counterexample :
  with_ failing_body (mkState tracer_off busy) =
  (Raise (Exception "boom"), mkState tracer_off busy) /\
  tracing (env (snd (with_ failing_body (mkState tracer_off busy)))) = true.
Proof. split; reflexivity. Qed.

Lemma scoped_cleanup_witness :
  fst (start (mkState tracer idle)) = Return RNone /\
  fst (with_ failing_body (mkState tracer idle)) = Raise (Exception "boom") /\
  tracing (env (snd (with_ failing_body (mkState tracer idle)))) = false.
Proof.
  split; [reflexivity|].
  destruct (scoped_cleanup failing_body (mkState tracer idle) RNone eq_refl)
    as (Hrun & Hon & _).
  split.
  - rewrite Hrun. reflexivity.
  - apply Hon. reflexivity.
Defined.

Lemma disabled_short_circuit_witness :
  disabled (self (mkState tracer_off busy)) = true /\
  update (mkState tracer_off busy) = (Return RNone, mkState tracer_off busy).
Proof.
  split; [reflexivity|].
  destruct (disabled_short_circuit (mkState tracer_off busy) eq_refl)
    as (_ & Hupdate & _).
  exact Hupdate.
Defined.

Lemma row_truncation_witness :
  0 <= top (self at_checkpoint) /\
  0 <= trace (self at_checkpoint) /\
  disabled (self at_checkpoint) = false /\
  tracing (env at_checkpoint) = true /\
  _start (self at_checkpoint) = Some (snapshot_of 25 heap0) /\
  _prev (self at_checkpoint) = Some (snapshot_of 25 heap0) /\
  List.length (statistics (snapshot_of 25 (collect heap1)) Filename) = 3%nat /\
  logged current_fmt (emitted at_checkpoint (snd (update at_checkpoint))) =
  [[PyStr (" 1: app.py:7: size=9216" ++ nl ++ " 2: app.py:3: size=4096")]].
Proof.
  pose proof (row_truncation at_checkpoint (snapshot_of 25 heap0) (snapshot_of 25 heap0)
                ltac:(discriminate) ltac:(discriminate)
                eq_refl eq_refl eq_refl eq_refl) as (_ & _ & _ & Hnow & _).
  repeat (split; [reflexivity || discriminate |]).
  exact Hnow.
Defined.

Lemma gc_before_snapshot_witness :
  disabled (self at_checkpoint) = false /\
  gccollect (self at_checkpoint) = true /\
  memory (env (snd (update at_checkpoint))) = collect heap1 /\
  _prev (self (snd (update at_checkpoint))) = Some (snapshot_of 25 (collect heap1)).
Proof.
  split; [reflexivity|]. split; [reflexivity|].
  destruct (gc_before_snapshot at_checkpoint eq_refl) as (Hon & _).
  destruct (Hon eq_refl) as (_ & Hmemory & Hprev).
  split; [exact Hmemory | exact (Hprev eq_refl)].
Defined.

Lemma detailed_traceback_reports_witness :
  0 <= trace (self at_checkpoint) /\
  StronglySorted (fun x y => size y <= size x)
    (statistics (snapshot_of 25 (collect heap1)) Traceback) /\
  logged traceback_fmt (emitted at_checkpoint (snd (update at_checkpoint))) =
  [[PyInt 3; PyFloat (kib 9216); PyStr ("app.py:7" ++ nl ++ "main.py:1")]] /\
  getMessage (EvLog traceback_fmt
                [PyInt 3; PyFloat (kib 9216); PyStr ("app.py:7" ++ nl ++ "main.py:1")]) =
  Some ("memory_blocks=3 size_KiB=9.0" ++ nl ++ "app.py:7" ++ nl ++ "main.py:1").
Proof.
  assert (Hsorted : StronglySorted (fun x y => size y <= size x)
                      (statistics (snapshot_of 25 (collect heap1)) Traceback)).
  { cbn. repeat (constructor; cbn); discriminate. }
  pose proof (detailed_traceback_reports at_checkpoint
                (snapshot_of 25 heap0) (snapshot_of 25 heap0)
                ltac:(discriminate) eq_refl eq_refl eq_refl eq_refl Hsorted)
    as (_ & Hlog & _ & _ & Hmessage & _).
  split; [discriminate|]. split; [exact Hsorted|]. split; [exact Hlog|].
  exact (proj2 (proj2 (Hmessage (mkStatistic ["app.py:7"; "main.py:1"] 9216 3)
                                (or_introl eq_refl)))).
Defined.

Lemma start_return_value_witness :
  fst (start (mkState tracer idle)) = Return RNone /\
  __enter__ (mkState tracer idle) = (Return RSelf, snd (start (mkState tracer idle))).
Proof.
  split; [reflexivity|].
  destruct (start_return_value (mkState tracer idle) RNone eq_refl) as (_ & _ & Henter).
  exact Henter.
Defined.

Lemma failed_start_opens_no_session_witness :
  fst (start (mkState tracer_nframe0 idle)) =
    Raise (ValueError "the number of frames must be in range [1; 65535]") /\
  self (snd (start (mkState tracer_nframe0 idle))) = tracer_nframe0 /\
  tracing (env (snd (start (mkState tracer_nframe0 idle)))) = false.
Proof.
  split; [reflexivity|].
  destruct (failed_start_opens_no_session (mkState tracer_nframe0 idle)
              (ValueError "the number of frames must be in range [1; 65535]")
              eq_refl)
    as (Hself & Htracing & _).
  split; [exact Hself | exact Htracing].
Defined.

Lemma failed_update_reports_nothing_witness :
  fst (update (mkState tracer busy)) =
    Raise (AttributeError "'NoneType' object has no attribute '_group_by'") /\
  emitted (mkState tracer busy) (snd (update (mkState tracer busy))) =
    [EvCollect; EvTakeSnapshot].
Proof.
  split; [reflexivity|].
  destruct (failed_update_reports_nothing (mkState tracer busy)
              (AttributeError "'NoneType' object has no attribute '_group_by'")
              eq_refl)
    as (_ & _ & Hcalls & _).
  exact Hcalls.
Defined.

Lemma update_before_start_raises_witness :
  (None : option bool) <> Some true /\
  exists e, fst (update (mkState (__init__ None None None None None) idle)) = Raise e.
Proof.
  split; [discriminate|].
  destruct (update_before_start_raises None None None None None idle
              ltac:(discriminate))
    as (Hraise & _).
  exact Hraise.
Defined.

Lemma restart_after_stop_witness :
  disabled (self at_checkpoint) = false /\
  valid_nframe (nframe (self at_checkpoint)) = true /\
  fst (start (snd (stop at_checkpoint))) = Return RNone /\
  _start (self (snd (start (snd (stop at_checkpoint))))) =
    Some (snapshot_of 25 (discard heap1)) /\
  snapshot_of 25 (discard heap1) = snapshot_of 25 [].
Proof.
  split; [reflexivity|]. split; [reflexivity|].
  destruct (restart_after_stop at_checkpoint eq_refl eq_refl)
    as (Hret & Hbase & _).
  split; [exact Hret|]. split; [exact Hbase | reflexivity].
Defined.

Lemma update_after_stop_raises_witness :
  disabled (self at_checkpoint) = false /\
  exists msg, fst (update (snd (stop at_checkpoint))) = Raise (RuntimeError msg).
Proof.
  split; [reflexivity|].
  destruct (update_after_stop_raises at_checkpoint eq_refl) as (Hraise & _).
  exact Hraise.
Defined.

Lemma refused_entry_skips_block_witness :
  disabled (self (mkState tracer busy)) = false /\
  tracing (env (mkState tracer busy)) = true /\
  emitted (mkState tracer busy) (snd (with_ failing_body (mkState tracer busy))) =
    [EvIsTracing].
Proof.
  split; [reflexivity|]. split; [reflexivity|].
  destruct (refused_entry_skips_block failing_body (mkState tracer busy)
              eq_refl eq_refl)
    as (_ & _ & Hcalls).
  exact Hcalls.
Defined.

Lemma reports_come_in_order_witness :
  disabled (self at_checkpoint) = false /\
  tracing (env at_checkpoint) = true /\
  _start (self at_checkpoint) = Some (snapshot_of 25 heap0) /\
  _prev (self at_checkpoint) = Some (snapshot_of 25 heap0) /\
  log_formats (emitted at_checkpoint (snd (update at_checkpoint))) =
    [cumulative_fmt; incremental_fmt; current_fmt; traceback_fmt].
Proof.
  repeat (split; [reflexivity|]).
  destruct (reports_come_in_order at_checkpoint
              (snapshot_of 25 heap0) (snapshot_of 25 heap0)
              eq_refl eq_refl eq_refl eq_refl)
    as (Horder & _).
  exact Horder.
Defined.

Lemma update_works_inside_a_session_witness :
  Forall quiet [CallStart; Elsewhere (allocate heap1); CallUpdate] /\
  _start (self (mkState tracer idle)) = None /\
  _prev (self (mkState tracer idle)) = None /\
  fst (update (run [CallStart; Elsewhere (allocate heap1); CallUpdate]
                   (mkState tracer idle))) = Return RNone.
Proof.
  assert (Hquiet : Forall quiet [CallStart; Elsewhere (allocate heap1); CallUpdate]).
  { repeat constructor. }
  split; [exact Hquiet|]. split; [reflexivity|]. split; [reflexivity|].
  destruct (update_works_inside_a_session
              [CallStart; Elsewhere (allocate heap1); CallUpdate]
              (mkState tracer idle) Hquiet eq_refl eq_refl)
    as (_ & _ & Hupdate).
  apply (Hupdate eq_refl). discriminate.
Defined.

Lemma report_has_one_line_per_row_witness :
  (forall x, In x two_rows -> newlines (str x) = O) /\
  newlines (_format_stats two_rows) = 1%nat.
Proof.
  assert (Hrows : forall x, In x two_rows -> newlines (str x) = O).
  { intros x [<- | [<- | []]]; reflexivity. }
  split; [exact Hrows|].
  exact (report_has_one_line_per_row two_rows Hrows).
Defined.

Lemma baseline_is_taken_without_collection_witness :
  fst (start (mkState tracer idle)) = Return RNone /\
  gccollect tracer = true /\
  _start (self (snd (start (mkState tracer idle)))) = Some (snapshot_of 25 heap0).
Proof.
  split; [reflexivity|]. split; [reflexivity|].
  destruct (baseline_is_taken_without_collection (mkState tracer idle) eq_refl)
    as (_ & _ & _ & Hbase).
  exact Hbase.
Defined.
